(** * USPPCIEPHY: the UltraScale+ PCIe PHY wrapper of litex_on_profpga_systems

    A shallow embedding of [litex_on_profpga_systems/pcie/usppciephy.py].
    The source is a Migen hardware description: running [USPPCIEPHY.__init__]
    elaborates a netlist (signals, combinatorial and synchronous statements,
    specials and submodules).  The embedding has two layers:

    - [Migen]: the fragment of the HDL the file uses (signals, [Cat], bit
      selection, [Case], assignment with truncation, [MultiReg], stream
      endpoints and their [connect]) with its simulation semantics;
    - [USPPCIEPHY]: the constructor, written in a state-and-error monad over
      the module under construction, line by line after the source. *)

From Stdlib Require Import ZArith List String Bool Lia.
From stdpp Require Import base gmap strings pretty.

#[local] Set Warnings "-register-all".

Local Open Scope string_scope.
Local Open Scope Z_scope.

(** ** The Migen fragment *)

Module Migen.

(** A signal is an object with a width; the embedding identifies it by the
    name it has in the generated netlist. *)
Record Signal := mkSignal { sig_name : string; nbits : Z }.

#[global] Instance Signal_eq_dec : EqDecision Signal.
Proof. solve_decision. Defined.

(** Expressions on the right-hand side of an assignment. *)
Inductive expr :=
| ESig (s : Signal)
| EConst (v : Z) (w : Z)
| ECat (es : list expr)          (* Cat(a, b, ...): a is least significant *)
| EBit (e : expr) (i : Z)        (* e[i] *)
| ENot (e : expr).               (* ~e *)

(** [value_bits_sign]: the width of an expression (all values are unsigned
    here). *)
Fixpoint width (e : expr) : Z :=
  match e with
  | ESig s => nbits s
  | EConst _ w => w
  | ECat es => fold_right (fun e acc => width e + acc) 0 es
  | EBit _ _ => 1
  | ENot e => width e
  end.

(** Keep the low [w] bits: what an assignment to a [w]-bit signal does. *)
Definition trunc (w v : Z) : Z := Z.land v (Z.ones w).

(** The values of the signals at one instant.  A signal the map does not
    mention reads 0, the reset value of every signal the properties below
    read (only [pcie_rst_n] is reset to 1). *)
Abbreviation env := (gmap string Z).

Definition read (σ : env) (s : Signal) : Z :=
  trunc (nbits s) (default 0 (σ !! sig_name s)).

Fixpoint eval (σ : env) (e : expr) : Z :=
  match e with
  | ESig s => read σ s
  | EConst v w => trunc w v
  | ECat es =>
      fold_right (fun e acc => Z.lor (eval σ e) (Z.shiftl acc (width e))) 0 es
  | EBit e i => Z.b2z (Z.testbit (eval σ e) i)
  | ENot e => trunc (width e) (Z.lnot (eval σ e))
  end.

(** [lhs.eq(rhs)] *)
Record assign := Eq_ { lhs : Signal; rhs : expr }.

(** Statements.  Every branch of the one [Case] of the source is a single
    assignment, so the branches are assignments; the Python dict of branches
    is a finite map keyed by the selector value. *)
Inductive stmt :=
| SAssign (a : assign)
| SCase (test : expr) (cases : gmap Z assign).

Definition exec_assign (σ : env) (a : assign) (acc : env) : env :=
  <[ sig_name (lhs a) := trunc (nbits (lhs a)) (eval σ (rhs a)) ]> acc.

(** One statement: right-hand sides are read in [σ], the writes go to [acc].
    A [Case] without a matching branch (and without default) does nothing. *)
Definition exec_stmt (σ : env) (st : stmt) (acc : env) : env :=
  match st with
  | SAssign a => exec_assign σ a acc
  | SCase test cases =>
      match cases !! eval σ test with
      | Some a => exec_assign σ a acc
      | None => acc
      end
  end.

(** All statements of one block take effect together: they all read the same
    [σ]; a signal no statement writes keeps its value. *)
Definition exec_block (stmts : list stmt) (σ : env) : env :=
  fold_left (fun acc st => exec_stmt σ st acc) stmts σ.

(** [range(n)] *)
Definition range (n : nat) : list Z := map Z.of_nat (seq 0 n).

(** [bits_for(v)]: the number of bits of the non-negative constant [v]. *)
Definition bits_for (v : Z) : Z := if v =? 0 then 1 else Z.log2 v + 1.

(** An integer used as a value is wrapped as [Constant(v)]. *)
Definition Constant (v : Z) : expr := EConst v (bits_for v).

(** *** Streams (litex.soc.interconnect.stream, litepcie.common) *)

(** The two endpoint descriptions the file uses. *)
Inductive layout :=
| phy_layout (data_width : Z)
| msi_layout.

(** Payload fields of a description: name and width. *)
Definition payload_layout (l : layout) : list (string * Z) :=
  match l with
  | phy_layout data_width => [("dat", data_width); ("be", data_width / 8)]
  | msi_layout => [("dat", 8)]
  end.

(** A [stream.Endpoint] with its description. *)
Record Endpoint := mkEndpoint { ep_name : string; description : layout }.

Definition field (ep : Endpoint) (f : string) (w : Z) : Signal :=
  mkSignal (ep_name ep +:+ "_" +:+ f) w.

Definition valid (ep : Endpoint) : Signal := field ep "valid" 1.
Definition ready (ep : Endpoint) : Signal := field ep "ready" 1.
Definition first (ep : Endpoint) : Signal := field ep "first" 1.
Definition last  (ep : Endpoint) : Signal := field ep "last" 1.

(** A payload field of an endpoint, as in [ep.dat]: its width is the one the
    description gives. *)
Definition payload (ep : Endpoint) (f : string) : Signal :=
  field ep f
    (default 0 (snd <$> List.find (fun p => String.eqb (fst p) f)
                                  (payload_layout (description ep)))).
Definition dat (ep : Endpoint) : Signal := payload ep "dat".
Definition be  (ep : Endpoint) : Signal := payload ep "be".

Definition eq_ (l : Signal) (r : expr) : stmt := SAssign (Eq_ l r).

(** [src.connect(dst)]: valid, first, last and the payload go from [src] to
    [dst], ready comes back. *)
Definition connect (src dst : Endpoint) : list stmt :=
  [ eq_ (valid dst) (ESig (valid src));
    eq_ (ready src) (ESig (ready dst));
    eq_ (first dst) (ESig (first src));
    eq_ (last dst)  (ESig (last src)) ]
  ++ map (fun '(f, w) => eq_ (field dst f w) (ESig (field src f w)))
         (payload_layout (description src)).

(** *** Submodules the file instantiates; their internals belong to the
    libraries, only the constructor arguments and the endpoints are kept. *)
Inductive Submodule :=
| PHYTXDatapath (core_data_width pcie_data_width : Z) (clock_domain : string)
| PHYRXDatapath (core_data_width pcie_data_width : Z) (clock_domain : string)
| AsyncFIFO (l : layout) (depth : Z)
| ClockDomainsRenamer (cd_remapping : gmap string string) (m : Submodule).

(** An instance: the submodule with the name it is bound to. *)
Record SubInst := mkSubInst { inst_name : string; inst : Submodule }.

(** The description of the [sink] and of the [source] of a submodule: a TX
    datapath takes the core width and gives the PCIe width, an RX datapath
    the other way round. *)
Fixpoint sink_layout (m : Submodule) : layout :=
  match m with
  | PHYTXDatapath core_data_width _ _ => phy_layout core_data_width
  | PHYRXDatapath _ pcie_data_width _ => phy_layout pcie_data_width
  | AsyncFIFO l _ => l
  | ClockDomainsRenamer _ m => sink_layout m
  end.

Fixpoint source_layout (m : Submodule) : layout :=
  match m with
  | PHYTXDatapath _ pcie_data_width _ => phy_layout pcie_data_width
  | PHYRXDatapath core_data_width _ _ => phy_layout core_data_width
  | AsyncFIFO l _ => l
  | ClockDomainsRenamer _ m => source_layout m
  end.

Definition sink (i : SubInst) : Endpoint :=
  mkEndpoint (inst_name i +:+ "_sink") (sink_layout (inst i)).
Definition source (i : SubInst) : Endpoint :=
  mkEndpoint (inst_name i +:+ "_source") (source_layout (inst i)).

(** *** Specials *)

(** An argument of [Instance(...)].  [AOpen w] is [Open(w)], a signal of the
    local class [Open(Signal)] made for this one port: nothing else refers to
    it, so only its width is kept. *)
Inductive arg :=
| AExpr (e : expr)
| AInt (v : Z)
| AStr (s : string)
| AOpen (w : Z).

Inductive Special :=
| MultiReg_ (i : expr) (o : Signal) (odomain : string) (n : nat)
| Instance (of_ : string) (items : list (string * arg)).

(** [MultiReg(i, o, odomain="sys", n=2)] *)
Definition MultiReg (i : expr) (o : Signal) : Special := MultiReg_ i o "sys" 2.

(** [CSRStatus(size=1, description=...)]: a register the bus reads through
    [status]. *)
Record CSRStatus := mkCSRStatus {
  csr_name : string; size : Z; csr_description : string
}.
Definition status (c : CSRStatus) : Signal :=
  mkSignal (csr_name c +:+ "_status") (size c).

(** *** A module under construction *)

Record Module_ := mkModule {
  comb : list stmt;
  sync : list (string * stmt);       (* clock domain, statement *)
  specials : list Special;
  submodules : list SubInst;
  clock_domains : list string
}.

Definition empty_module : Module_ := mkModule [] [] [] [] [].

(** Python exceptions the constructor can raise. *)
Inductive exn :=
| AssertionError (msg : option string)   (* [assert c] has no message *)
| ValueError (msg : string)
| IndexError.

(** The message an exception carries, if any. *)
Definition message (e : exn) : option string :=
  match e with
  | AssertionError msg => msg
  | ValueError msg => Some msg
  | IndexError => None
  end.

(** Construction: state passing over the module, or an exception. *)
Definition M (A : Type) : Type := Module_ -> exn + (A * Module_).

Definition ret {A} (a : A) : M A := fun m => inr (a, m).
Definition bind {A B} (c : M A) (k : A -> M B) : M B :=
  fun m => match c m with
           | inl e => inl e
           | inr (a, m') => k a m'
           end.
Definition raise {A} (e : exn) : M A := fun _ => inl e.

(** [assert c] *)
Definition assert_ (c : bool) : M unit :=
  if c then ret tt else raise (AssertionError None).

(** [stream.Endpoint(description)] builds the record of the signals of the
    stream: [valid], [ready], [first] and [last] of one bit, then one
    [Signal(w)] for every payload field.  [Signal] checks its width. *)
Definition stream_Endpoint (name : string) (l : layout) : M Endpoint :=
  if forallb (fun '(_, w) => 0 <? w) (payload_layout l)
  then ret (mkEndpoint name l)
  else raise (ValueError "Signal width must be a strictly positive integer").

Definition add_comb (l : list stmt) : M unit :=
  fun '(mkModule comb sync specials submodules clock_domains) =>
    inr (tt, mkModule (comb ++ l) sync specials submodules clock_domains).
Definition add_sync (cd : string) (l : list stmt) : M unit :=
  fun '(mkModule comb sync specials submodules clock_domains) =>
    inr (tt, mkModule comb (sync ++ map (pair cd) l) specials submodules
                      clock_domains).
Definition add_specials (l : list Special) : M unit :=
  fun '(mkModule comb sync specials submodules clock_domains) =>
    inr (tt, mkModule comb sync (specials ++ l) submodules clock_domains).
Definition add_submodule (name : string) (s : Submodule) : M SubInst :=
  fun '(mkModule comb sync specials submodules clock_domains) =>
    let i := mkSubInst name s in
    inr (i, mkModule comb sync specials (submodules ++ [i]) clock_domains).
Definition add_clock_domain (cd : string) : M unit :=
  fun '(mkModule comb sync specials submodules clock_domains) =>
    inr (tt, mkModule comb sync specials submodules (clock_domains ++ [cd])).

(** [s[key]] with an integer key: checked when the expression is built; a
    negative key counts from the top. *)
Definition getitem (s : Signal) (key : Z) : M expr :=
  let n := nbits s in
  if n <=? key then raise IndexError
  else
    let key := if key <? 0 then key + n else key in
    ret (EBit (ESig s) key).

(** *** Simulation of a constructed module *)

(** [MultiRegImpl]: [n] registers of the width of [i] clocked by [odomain];
    [o] is driven combinatorially from the last one. *)
Definition multireg_reg (i : expr) (o : Signal) (k : nat) : Signal :=
  mkSignal (sig_name o +:+ "_multireg"
              +:+ String (Ascii.ascii_of_nat (48 + k)) EmptyString)
           (width i).

Fixpoint multireg_sync (i : expr) (o : Signal) (src : expr) (k n : nat) : list stmt :=
  match n with
  | O => []
  | S n' =>
      let reg := multireg_reg i o k in
      eq_ reg src :: multireg_sync i o (ESig reg) (S k) n'
  end.

Definition multireg_last (i : expr) (o : Signal) (n : nat) : expr :=
  match n with
  | O => i
  | S n' => ESig (multireg_reg i o n')
  end.

Definition special_sync (cd : string) (s : Special) : list stmt :=
  match s with
  | MultiReg_ i o odomain n =>
      if decide (odomain = cd) then multireg_sync i o i 0 n else []
  | Instance _ _ => []
  end.

Definition special_comb (s : Special) : list stmt :=
  match s with
  | MultiReg_ i o odomain n => [eq_ o (multireg_last i o n)]
  | Instance _ _ => []
  end.

(** [ClockSignal(cd)] and [ResetSignal(cd)]: the clock and the reset of the
    clock domain [cd], which [ClockDomain()] names after the domain. *)
Definition ClockSignal (cd : string) : Signal := mkSignal (cd +:+ "_clk") 1.
Definition ResetSignal (cd : string) : Signal := mkSignal (cd +:+ "_rst") 1.

(** The statements the module itself puts in [self.sync.<cd>]. *)
Definition user_sync (cd : string) (m : Module_) : list stmt :=
  omap (fun '(d, st) => if decide (d = cd) then Some st else None) (sync m).

(** The statements of clock domain [cd]: those of the module and the
    registers of the synchronisers. *)
Definition sync_of (cd : string) (m : Module_) : list stmt :=
  user_sync cd m ++ flat_map (special_sync cd) (specials m).

Definition comb_of (m : Module_) : list stmt :=
  comb m ++ flat_map special_comb (specials m).

(** The signals a statement assigns ([list_targets]), each once. *)
Definition target_signals (st : stmt) : list Signal :=
  match st with
  | SAssign a => [lhs a]
  | SCase _ cases =>
      remove_dups (map (fun kv => lhs (snd kv)) (map_to_list cases))
  end.

(** [insert_reset]: the statements that put the registers of [cd] back to
    their reset value.  The registers of the file ([id] and the two size
    registers) are made by [Signal(16)], so their reset value is 0; those of
    a [MultiReg] are [reset_less] and have no reset statement. *)
Definition resetcode (cd : string) (m : Module_) : list stmt :=
  map (fun t => eq_ t (Constant 0))
      (remove_dups (flat_map target_signals (user_sync cd m))).

(** One active edge of [cd]: the statements of the domain, then, as
    [insert_reset] appends [If(ResetSignal(cd), *resetcode)], the reset
    statements when the reset of the domain is asserted. *)
Definition tick (cd : string) (m : Module_) (σ : env) : env :=
  exec_block
    (sync_of cd m
     ++ (if read σ (ResetSignal cd) =? 0 then [] else resetcode cd m)) σ.

(** One evaluation of the combinatorial statements on the values of [σ]. *)
Definition settle (m : Module_) (σ : env) : env :=
  exec_block (comb_of m) σ.

(** What one statement writes to signal [x] when run on [σ], if anything. *)
Definition write_of (σ : env) (st : stmt) (x : string) : option Z :=
  let of_assign (a : assign) :=
    if String.eqb (sig_name (lhs a)) x
    then Some (trunc (nbits (lhs a)) (eval σ (rhs a))) else None in
  match st with
  | SAssign a => of_assign a
  | SCase test cases =>
      match cases !! eval σ test with
      | Some a => of_assign a
      | None => None
      end
  end.

(** The constant a [Case] assigns in the branch of key [c]. *)
Definition case_const (st : stmt) (c : Z) : option Z :=
  match st with
  | SCase _ cases =>
      match rhs <$> cases !! c with
      | Some (EConst v _) => Some v
      | _ => None
      end
  | SAssign _ => None
  end.

(** Width-conversion datapaths and clock-domain-crossing queues among the
    submodules. *)
Definition is_datapath (s : Submodule) : bool :=
  match s with
  | PHYTXDatapath _ _ _ | PHYRXDatapath _ _ _ => true
  | _ => false
  end.

Fixpoint is_async_fifo (s : Submodule) : bool :=
  match s with
  | AsyncFIFO _ _ => true
  | ClockDomainsRenamer _ s => is_async_fifo s
  | _ => false
  end.

End Migen.

Import Migen.

Notation "x <- c1 ;; c2" := (bind c1 (fun x => c2))
  (at level 100, c1 at next level, right associativity).
Notation "c1 ;;; c2" := (bind c1 (fun _ => c2))
  (at level 100, right associativity).

(** ** Size-class codes: [convert_size] *)

(** The loop of [convert_size]: [cases] and [value] after the iterations over
    [r], started from [(cases, value)]. *)
Definition convert_size_loop (size : Signal) (max_size : Z)
    (r : list Z) (init : gmap Z assign * Z) : gmap Z assign * Z :=
  fold_left
    (fun '(cases, value) i =>
       (<[ i := Eq_ size (Constant value) ]> cases,
        Z.min (value * 2) max_size))
    r init.

Definition convert_size (command : Signal) (size : Signal) (max_size : Z) : stmt :=
  let cases : gmap Z assign := ∅ in
  let value := 128 in
  let '(cases, _) := convert_size_loop size max_size (range 6) (cases, value) in
  SCase (ESig command) cases.

(** ** The PHY wrapper *)

Module USPPCIEPHY.

(** The pads of the connector: [tx_p] has one bit per lane; [rst_n] may be
    absent ([hasattr(pads, "rst_n")]). *)
Record Pads := mkPads {
  clk_p : Signal; clk_n : Signal;
  tx_p : Signal; tx_n : Signal;
  rx_p : Signal; rx_n : Signal;
  rst_n : option Signal
}.

(** The attributes [__init__] leaves on [self]. *)
Record t := mkPHY {
  req_sink : Endpoint;
  cmp_sink : Endpoint;
  req_source : Endpoint;
  cmp_source : Endpoint;
  msi : Endpoint;
  _link_up : CSRStatus;
  _msi_enable : CSRStatus;
  _bus_master_enable : CSRStatus;
  _max_request_size : CSRStatus;
  _max_payload_size : CSRStatus;
  data_width : Z;
  pcie_data_width : Z;
  id : Signal;
  bar0_size : Z;
  max_request_size : Signal;
  max_payload_size : Signal;
  external_hard_ip : bool;
  speed : string;
  nlanes : Z;
  pcie_refclk : Signal;
  pcie_refclk_gt : Signal;
  pcie_rst_n : Signal;
  cc_datapath : SubInst;
  rq_datapath : SubInst;
  cq_datapath : SubInst;
  rc_datapath : SubInst;
  m_axis_cq : Endpoint;
  s_axis_cc : Endpoint;
  s_axis_rq : Endpoint;
  m_axis_rc : Endpoint;
  pcie_phy_params : list (string * arg)
}.

Definition MB : Z := 1024 * 1024.

(** Signals local to [__init__]; the hard IP drives them or reads them. *)
Definition link_up              : Signal := mkSignal "link_up" 1.
Definition msi_enable           : Signal := mkSignal "msi_enable" 1.
Definition serial_number        : Signal := mkSignal "serial_number" 64.
Definition bus_number           : Signal := mkSignal "bus_number" 8.
Definition device_number        : Signal := mkSignal "device_number" 5.
Definition function_number      : Signal := mkSignal "function_number" 3.
Definition cfg_function_status  : Signal := mkSignal "cfg_function_status" 16.
Definition cfg_max_payload_size : Signal := mkSignal "cfg_max_payload_size" 3.
Definition cfg_max_read_req     : Signal := mkSignal "cfg_max_read_req" 3.
Definition m_axis_rc_tuser      : Signal := mkSignal "m_axis_rc_tuser" 22.
Definition m_axis_cq_tuser      : Signal := mkSignal "m_axis_cq_tuser" 22.
Definition m_axis_rc_tlast      : Signal := mkSignal "m_axis_rc_tlast" 1.
Definition m_axis_cq_tlast      : Signal := mkSignal "m_axis_cq_tlast" 1.

(** [USPPCIEPHY.__init__(self, platform, pads, speed="gen2", data_width=64,
    bar0_size=1*MB, cd="sys", pcie_data_width=None)].

    Left out: [platform] (it only receives a period constraint and the source
    files) and [bar0_mask] (a mask computed from [bar0_size] that nothing
    reads). *)
Definition __init__ (pads : Pads) (speed : string) (data_width : Z)
    (bar0_size : Z) (cd : string) (pcie_data_width : option Z) : M t :=
  (* Streams *)
  req_sink   <- stream_Endpoint "req_sink"   (phy_layout data_width) ;;
  cmp_sink   <- stream_Endpoint "cmp_sink"   (phy_layout data_width) ;;
  req_source <- stream_Endpoint "req_source" (phy_layout data_width) ;;
  cmp_source <- stream_Endpoint "cmp_source" (phy_layout data_width) ;;
  msi        <- stream_Endpoint "msi"        msi_layout ;;
  (* Registers *)
  let _link_up := mkCSRStatus "_link_up" 1
    "Link Up Status. ``1``: Link is Up." in
  let _msi_enable := mkCSRStatus "_msi_enable" 1
    "MSI Enable Status. ``1``: MSI is enabled." in
  let _bus_master_enable := mkCSRStatus "_bus_master_enable" 1
    "Bus Mastering Status. ``1``: Bus Mastering enabled." in
  let _max_request_size := mkCSRStatus "_max_request_size" 16
    "Negiotiated Max Request Size (in bytes)." in
  let _max_payload_size := mkCSRStatus "_max_payload_size" 16
    "Negiotiated Max Payload Size (in bytes)." in
  (* Parameters/Locals *)
  let pcie_data_width :=
    match pcie_data_width with None => data_width | Some w => w end in
  let id := mkSignal "id" 16 in
  let max_request_size := mkSignal "max_request_size" 16 in
  let max_payload_size := mkSignal "max_payload_size" 16 in
  let external_hard_ip := false in
  let nlanes := nbits (tx_p pads) in
  assert_ (bool_decide (speed ∈ ["gen2"; "gen3"; "gen4"])) ;;;
  assert_ (bool_decide (nlanes ∈ [1; 2; 4; 8; 16])) ;;;
  assert_ (bool_decide (data_width ∈ [64; 128; 256; 512])) ;;;
  assert_ (bool_decide (pcie_data_width ∈ [64; 128; 256; 512])) ;;;
  (* Clocking / Reset *)
  let pcie_refclk    := mkSignal "pcie_refclk" 1 in
  let pcie_refclk_gt := mkSignal "pcie_refclk_gt" 1 in
  let pcie_rst_n     := mkSignal "pcie_rst_n" 1 in
  match rst_n pads with
  | Some r => add_comb [eq_ pcie_rst_n (ESig r)]
  | None => ret tt
  end ;;;
  add_specials [Instance "IBUFDS_GTE4" [
    ("p_REFCLK_HROW_CK_SEL", AInt 0);
    ("i_CEB",   AExpr (ENot (ESig pcie_rst_n)));
    ("i_I",     AExpr (ESig (clk_p pads)));
    ("i_IB",    AExpr (ESig (clk_n pads)));
    ("o_O",     AExpr (ESig pcie_refclk_gt));
    ("o_ODIV2", AExpr (ESig pcie_refclk)) ]] ;;;
  add_clock_domain "pcie" ;;;
  (* TX (FPGA --> HOST) CDC / Data Width Conversion *)
  cc_datapath <- add_submodule "cc_datapath"
                   (PHYTXDatapath data_width pcie_data_width cd) ;;
  add_comb (connect cmp_sink (sink cc_datapath)) ;;;
  let s_axis_cc := source cc_datapath in
  rq_datapath <- add_submodule "rq_datapath"
                   (PHYTXDatapath data_width pcie_data_width cd) ;;
  add_comb (connect req_sink (sink rq_datapath)) ;;;
  let s_axis_rq := source rq_datapath in
  (* RX (HOST --> FPGA) CDC / Data Width Conversion *)
  cq_datapath <- add_submodule "cq_datapath"
                   (PHYRXDatapath data_width pcie_data_width cd) ;;
  let m_axis_cq := sink cq_datapath in
  add_comb (connect (source cq_datapath) req_source) ;;;
  rc_datapath <- add_submodule "rc_datapath"
                   (PHYRXDatapath data_width pcie_data_width cd) ;;
  let m_axis_rc := sink rc_datapath in
  add_comb (connect (source rc_datapath) cmp_source) ;;;
  (* MSI CDC (FPGA --> HOST) *)
  cfg_msi <-
    (if decide (cd = "pcie") then ret msi
     else
       let msi_cdc := AsyncFIFO msi_layout 4 in
       let msi_cdc :=
         ClockDomainsRenamer (<["write" := cd]> (<["read" := "pcie"]> ∅)) msi_cdc in
       msi_cdc <- add_submodule "msi_cdc" msi_cdc ;;
       add_comb (connect msi (sink msi_cdc)) ;;;
       ret (source msi_cdc)) ;;
  (* Hard IP Configuration *)
  add_sync "pcie" [
    convert_size cfg_max_read_req     max_request_size 512;
    convert_size cfg_max_payload_size max_payload_size 512;
    eq_ id (ECat [ESig function_number; ESig device_number; ESig bus_number]) ] ;;;
  add_specials [
    MultiReg (ESig link_up) (status _link_up);
    MultiReg (ESig cfg_function_status) (status _bus_master_enable);
    MultiReg (ESig msi_enable) (status _msi_enable);
    MultiReg (ESig max_request_size) (status _max_request_size);
    MultiReg (ESig max_payload_size) (status _max_payload_size) ] ;;;
  (* Hard IP *)
  let pcie_phy_params := [
    (* Parameters *)
    ("p_LINK_CAP_MAX_LINK_WIDTH", AInt nlanes);
    ("p_C_DATA_WIDTH",            AInt pcie_data_width);
    ("p_KEEP_WIDTH",              AInt (pcie_data_width / 8));
    ("p_PCIE_GT_DEVICE",          AStr "GTY");
    ("p_PCIE_USE_MODE",           AStr "2.0");
    (* PCI Express Interface *)
    ("i_sys_clk",                 AExpr (ESig pcie_refclk));
    ("i_sys_clk_gt",              AExpr (ESig pcie_refclk_gt));
    ("i_sys_rst_n",               AExpr (ESig pcie_rst_n));
    ("o_pci_exp_txp",             AExpr (ESig (tx_p pads)));
    ("o_pci_exp_txn",             AExpr (ESig (tx_n pads)));
    ("i_pci_exp_rxp",             AExpr (ESig (rx_p pads)));
    ("i_pci_exp_rxn",             AExpr (ESig (rx_n pads)));
    (* AXI-S Interface: common *)
    ("o_user_clk_out",            AExpr (ESig (ClockSignal "pcie")));
    ("o_user_reset_out",          AExpr (ESig (ResetSignal "pcie")));
    ("o_user_lnk_up",             AExpr (ESig link_up));
    ("o_user_app_rdy",            AOpen 1);
    (* (FPGA -> Host) Requester Request *)
    ("o_pcie_tfc_nph_av",         AOpen 2);
    ("o_pcie_tfc_npd_av",         AOpen 2);
    ("o_pcie_rq_tag_av",          AOpen 2);
    ("o_pcie_rq_seq_num",         AOpen 4);
    ("o_pcie_rq_seq_num_vld",     AOpen 1);
    ("o_pcie_rq_tag",             AOpen 6);
    ("o_pcie_rq_tag_vld",         AOpen 1);
    ("i_s_axis_rq_tvalid",        AExpr (ESig (valid s_axis_rq)));
    ("i_s_axis_rq_tlast",         AExpr (ESig (last s_axis_rq)));
    ("o_s_axis_rq_tready",        AExpr (ESig (ready s_axis_rq)));
    ("i_s_axis_rq_tdata",         AExpr (ESig (dat s_axis_rq)));
    ("i_s_axis_rq_tkeep",         AExpr (ESig (be s_axis_rq)));
    ("i_s_axis_rq_tuser",         AExpr (Constant 0));
    (* (Host -> FPGA) Completer Request *)
    ("i_pcie_cq_np_req",          AInt 1);
    ("o_pcie_cq_np_req_count",    AOpen 6);
    ("o_m_axis_cq_tvalid",        AExpr (ESig (valid m_axis_cq)));
    ("o_m_axis_cq_tlast",         AExpr (ESig m_axis_cq_tlast));
    ("i_m_axis_cq_tready",        AExpr (ESig (ready m_axis_cq)));
    ("o_m_axis_cq_tdata",         AExpr (ESig (dat m_axis_cq)));
    ("o_m_axis_cq_tkeep",         AExpr (ESig (be m_axis_cq)));
    ("o_m_axis_cq_tuser",         AExpr (ESig m_axis_cq_tuser));
    (* (Host -> FPGA) Requester Completion *)
    ("o_m_axis_rc_tvalid",        AExpr (ESig (valid m_axis_rc)));
    ("o_m_axis_rc_tlast",         AExpr (ESig m_axis_rc_tlast));
    ("i_m_axis_rc_tready",        AExpr (ESig (ready m_axis_rc)));
    ("o_m_axis_rc_tdata",         AExpr (ESig (dat m_axis_rc)));
    ("o_m_axis_rc_tkeep",         AExpr (ESig (be m_axis_rc)));
    ("o_m_axis_rc_tuser",         AExpr (ESig m_axis_rc_tuser));
    (* (FPGA -> Host) Completer Completion *)
    ("i_s_axis_cc_tvalid",        AExpr (ESig (valid s_axis_cc)));
    ("i_s_axis_cc_tlast",         AExpr (ESig (last s_axis_cc)));
    ("o_s_axis_cc_tready",        AExpr (ESig (ready s_axis_cc)));
    ("i_s_axis_cc_tdata",         AExpr (ESig (dat s_axis_cc)));
    ("i_s_axis_cc_tkeep",         AExpr (ESig (be s_axis_cc)));
    ("i_s_axis_cc_tuser",         AExpr (Constant 0));
    (* Management Interface *)
    ("o_cfg_mgmt_do",             AOpen 32);
    ("o_cfg_mgmt_rd_wr_done",     AOpen 1);
    ("i_cfg_mgmt_di",             AInt 0);
    ("i_cfg_mgmt_byte_en",        AInt 0);
    ("i_cfg_mgmt_dwaddr",         AInt 0);
    ("i_cfg_mgmt_wr_en",          AInt 0);
    ("i_cfg_mgmt_rd_en",          AInt 0);
    (* Flow Control & Status *)
    ("o_cfg_fc_cpld",             AOpen 12);
    ("o_cfg_fc_cplh",             AOpen 8);
    ("o_cfg_fc_npd",              AOpen 12);
    ("o_cfg_fc_nph",              AOpen 8);
    ("o_cfg_fc_pd",               AOpen 12);
    ("o_cfg_fc_ph",               AOpen 8);
    ("i_cfg_fc_sel",              AInt 0);
    (* Configuration Tx/Rx Message *)
    ("o_cfg_msg_received",        AOpen 1);
    ("o_cfg_msg_received_data",   AOpen 8);
    ("o_cfg_msg_received_type",   AOpen 5);
    ("i_cfg_msg_transmit",        AInt 0);
    ("i_cfg_msg_transmit_data",   AInt 0);
    ("i_cfg_msg_transmit_type",   AInt 0);
    ("o_cfg_msg_transmit_done",   AOpen 1);
    (* Configuration Control Interface: hot config *)
    ("o_pl_received_hot_rst",     AOpen 1);
    ("i_pl_transmit_hot_rst",     AInt 0);
    (* Identification & Routing *)
    ("i_cfg_dsn",                 AExpr (ESig serial_number));
    ("i_cfg_ds_bus_number",       AExpr (ESig bus_number));
    ("i_cfg_ds_device_number",    AExpr (ESig device_number));
    ("i_cfg_ds_function_number",  AExpr (ESig function_number));
    ("i_cfg_ds_port_number",      AInt 0);
    ("i_cfg_subsys_vend_id",      AInt 4334);
    (* Power-down request TLP *)
    ("i_cfg_power_state_change_ack",       AInt 0);
    ("o_cfg_power_state_change_interrupt", AOpen 1);
    (* Interrupt Signals (Legacy & MSI) *)
    ("i_cfg_interrupt_int",       AInt 0);
    ("i_cfg_interrupt_pending",   AInt 0);
    ("o_cfg_interrupt_sent",      AOpen 1);
    ("o_cfg_interrupt_msi_enable",      AExpr (ESig msi_enable));
    ("i_cfg_interrupt_msi_int_valid",   AExpr (ESig (valid cfg_msi)));
    ("i_cfg_interrupt_msi_int",         AExpr (ESig (dat cfg_msi)));
    ("o_cfg_interrupt_msi_sent",        AExpr (ESig (ready cfg_msi)));
    ("o_cfg_interrupt_msi_fail",        AOpen 1);
    ("o_cfg_interrupt_msi_mmenable",    AOpen 12);
    ("o_cfg_interrupt_msi_mask_update", AOpen 1);
    ("o_cfg_interrupt_msi_data",        AOpen 32);
    ("o_cfg_interrupt_msi_vf_enable",   AOpen 8);
    (* Error Reporting Interface *)
    ("o_cfg_phy_link_down",       AOpen 1);
    ("o_cfg_phy_link_status",     AOpen 2);
    ("o_cfg_negotiated_width",    AOpen 4);
    ("o_cfg_current_speed",       AOpen 3);
    ("o_cfg_max_payload",         AExpr (ESig cfg_max_payload_size));
    ("o_cfg_max_read_req",        AExpr (ESig cfg_max_read_req));
    ("o_cfg_function_status",     AExpr (ESig cfg_function_status));
    ("o_cfg_function_power_state", AOpen 12);
    ("o_cfg_vf_status",           AOpen 16);
    ("o_cfg_vf_power_state",      AOpen 24);
    ("o_cfg_link_power_state",    AOpen 2);
    ("o_cfg_err_cor_out",         AOpen 1);
    ("o_cfg_err_nonfatal_out",    AOpen 1);
    ("o_cfg_err_fatal_out",       AOpen 1);
    ("o_cfg_ltr_enable",          AOpen 1);
    ("o_cfg_ltssm_state",         AOpen 6);
    ("o_cfg_rcb_status",          AOpen 4);
    ("o_cfg_dpa_substate_change", AOpen 4);
    ("o_cfg_obff_enable",         AOpen 2);
    ("o_cfg_pl_status_change",    AOpen 1);
    ("o_cfg_tph_requester_enable",    AOpen 4);
    ("o_cfg_tph_st_mode",             AOpen 12);
    ("o_cfg_vf_tph_requester_enable", AOpen 8);
    ("o_cfg_vf_tph_st_mode",          AOpen 24) ] in
  cq_first <- getitem m_axis_cq_tuser 14 ;;
  rc_first <- getitem m_axis_rc_tuser 14 ;;
  add_comb [
    eq_ (first m_axis_cq) cq_first;
    eq_ (last m_axis_cq)  (ESig m_axis_cq_tlast);
    eq_ (first m_axis_rc) rc_first;
    eq_ (last m_axis_rc)  (ESig m_axis_rc_tlast) ] ;;;
  ret {|
    req_sink := req_sink; cmp_sink := cmp_sink;
    req_source := req_source; cmp_source := cmp_source; msi := msi;
    _link_up := _link_up; _msi_enable := _msi_enable;
    _bus_master_enable := _bus_master_enable;
    _max_request_size := _max_request_size;
    _max_payload_size := _max_payload_size;
    data_width := data_width; pcie_data_width := pcie_data_width;
    id := id; bar0_size := bar0_size;
    max_request_size := max_request_size;
    max_payload_size := max_payload_size;
    external_hard_ip := external_hard_ip;
    speed := speed; nlanes := nlanes;
    pcie_refclk := pcie_refclk; pcie_refclk_gt := pcie_refclk_gt;
    pcie_rst_n := pcie_rst_n;
    cc_datapath := cc_datapath; rq_datapath := rq_datapath;
    cq_datapath := cq_datapath; rc_datapath := rc_datapath;
    m_axis_cq := m_axis_cq; s_axis_cc := s_axis_cc;
    s_axis_rq := s_axis_rq; m_axis_rc := m_axis_rc;
    pcie_phy_params := pcie_phy_params |}.

(** The last line of [do_finalize]: the hard IP is instantiated with
    [pcie_phy_params].  The choice of the IP source files before it (by
    [external_hard_ip], the subclass, the speed and the lane count) is in
    [Sources.do_finalize] below. *)
Definition do_finalize (self : t) : M unit :=
  add_specials [Instance "pcie_support" (pcie_phy_params self)].

(** Construction of a PHY from scratch. *)
Definition new (pads : Pads) (speed : string) (data_width : Z)
    (bar0_size : Z) (cd : string) (pcie_data_width : option Z)
  : exn + (t * Module_) :=
  __init__ pads speed data_width bar0_size cd pcie_data_width empty_module.

End USPPCIEPHY.

(** The negotiated size of each size-class code, ceiling 512. *)
Definition size_table : list Z := [128; 256; 512; 512; 512; 512].

Import USPPCIEPHY.

(** The configurations [__init__] accepts. *)
Definition supported (pads : Pads) (speed : string) (dw : Z)
    (pdw : option Z) : Prop :=
  speed ∈ ["gen2"; "gen3"; "gen4"] /\
  nbits (tx_p pads) ∈ [1; 2; 4; 8; 16] /\
  dw ∈ [64; 128; 256; 512] /\
  default dw pdw ∈ [64; 128; 256; 512].

(** A rejection that says which parameter is at fault: at the least, the
    exception carries a message. *)
Definition rejected_with_description (r : exn + (t * Module_)) : Prop :=
  exists e msg, r = inl e /\ message e = Some msg.

(** The rejection of unsupported configurations, with the description the
    specification asks for. *)
Definition rejection_with_description_claim (pads : Pads) (speed : string)
    (dw b0 : Z) (cd : string) (pdw : option Z) : Prop :=
  ((exists e, new pads speed dw b0 cd pdw = inl e)
   <-> ~ supported pads speed dw pdw) /\
  (~ supported pads speed dw pdw ->
   rejected_with_description (new pads speed dw b0 cd pdw)).

(** Pads of a four-lane connector with a reset pin. *)
Definition pads_x4 : Pads :=
  mkPads (mkSignal "pcie_x4_clk_p" 1) (mkSignal "pcie_x4_clk_n" 1)
         (mkSignal "pcie_x4_tx_p" 4) (mkSignal "pcie_x4_tx_n" 4)
         (mkSignal "pcie_x4_rx_p" 4) (mkSignal "pcie_x4_rx_n" 4)
         (Some (mkSignal "pcie_x4_rst_n" 1)).

(** ** The signals a netlist drives *)

(** The signals a statement assigns: for a [Case], those of its branches. *)
Definition targets (st : stmt) : list string :=
  match st with
  | SAssign a => [sig_name (lhs a)]
  | SCase _ cases =>
      remove_dups (map (fun kv => sig_name (lhs (snd kv))) (map_to_list cases))
  end.

(** The registers of a special, with the statements that load them. *)
Definition special_regs (s : Special) : list stmt :=
  match s with
  | MultiReg_ i o _ n => multireg_sync i o i 0 n
  | Instance _ _ => []
  end.

(** Every statement of a module: combinatorial, synchronous (all domains) and
    those of the specials. *)
Definition statements (m : Module_) : list stmt :=
  comb_of m ++ map snd (sync m) ++ flat_map special_regs (specials m).

(** The signals bound to the output ports ([o_...]) of an instance, but for
    the ports in [but]. *)
Definition outputs (but : list string) (items : list (string * arg))
  : list string :=
  flat_map (fun '(k, a) =>
              match a with
              | AExpr (ESig s) =>
                  if String.prefix "o_" k && negb (bool_decide (k ∈ but))
                  then [sig_name s] else []
              | _ => []
              end) items.

(** The signals the output ports of a special drive. *)
Definition special_outputs (but : list string) (s : Special) : list string :=
  match s with
  | Instance _ items => outputs but items
  | MultiReg_ _ _ _ _ => []
  end.

(** Every driver of a module: one entry for each signal a statement assigns
    and for each signal an instance output drives. *)
Definition drivers (but : list string) (m : Module_) : list string :=
  flat_map targets (statements m) ++ flat_map (special_outputs but) (specials m).

(** ** Source files: [add_sources], [use_external_hard_ip], [do_finalize] *)

Module Sources.

Import Stdlib.Strings.Ascii.

(** The class [self] is an instance of: [USPPCIEPHY] itself ([Base]) or one
    of its two subclasses. *)
Inductive Class := Base | USPHBMPCIEPHY | USP19PPCIEPHY.

(** What the platform is asked for, in order. *)
Inductive platform_call :=
| add_ip (filename : string)
| add_source (filename : string).

(** [os.path.join(a, b)] (POSIX). *)
Definition startswith_sep (b : string) : bool :=
  match b with
  | String "/"%char _ => true
  | _ => false
  end.

Fixpoint endswith_sep (a : string) : bool :=
  match a with
  | EmptyString => false
  | String c EmptyString => Ascii.eqb c "/"%char
  | String _ a' => endswith_sep a'
  end.

Definition join (a b : string) : string :=
  if startswith_sep b then b
  else if String.eqb a "" || endswith_sep a then a +:+ b
  else a +:+ "/" +:+ b.

(** [add_sources(self, platform, phy_path, phy_filename)] *)
Definition add_sources (platform : list platform_call)
    (phy_path phy_filename : string) : list platform_call :=
  platform
  ++ [ add_ip (join phy_path phy_filename);
       add_source (join phy_path "pcie_usp_support.v") ].

(** [self.external_hard_ip = v] *)
Definition set_external_hard_ip (v : bool) (self : t) : t :=
  {| req_sink := req_sink self; cmp_sink := cmp_sink self;
     req_source := req_source self; cmp_source := cmp_source self;
     msi := msi self;
     _link_up := _link_up self; _msi_enable := _msi_enable self;
     _bus_master_enable := _bus_master_enable self;
     _max_request_size := _max_request_size self;
     _max_payload_size := _max_payload_size self;
     data_width := data_width self; pcie_data_width := pcie_data_width self;
     id := id self; bar0_size := bar0_size self;
     max_request_size := max_request_size self;
     max_payload_size := max_payload_size self;
     external_hard_ip := v;
     speed := speed self; nlanes := nlanes self;
     pcie_refclk := pcie_refclk self; pcie_refclk_gt := pcie_refclk_gt self;
     pcie_rst_n := pcie_rst_n self;
     cc_datapath := cc_datapath self; rq_datapath := rq_datapath self;
     cq_datapath := cq_datapath self; rc_datapath := rc_datapath self;
     m_axis_cq := m_axis_cq self; s_axis_cc := s_axis_cc self;
     s_axis_rq := s_axis_rq self; m_axis_rc := m_axis_rc self;
     pcie_phy_params := pcie_phy_params self |}.

(** [use_external_hard_ip(self, hard_ip_path, hard_ip_filename)] *)
Definition use_external_hard_ip (self : t) (platform : list platform_call)
    (hard_ip_path hard_ip_filename : string) : t * list platform_call :=
  let self := set_external_hard_ip true self in
  (self, add_sources platform hard_ip_path hard_ip_filename).

(** The [variant] of [do_finalize], by [isinstance]. *)
Definition variant (cls : Class) : string :=
  match cls with
  | USPHBMPCIEPHY => "_hbm"
  | USP19PPCIEPHY => "_19p"
  | Base => ""
  end.

(** ["xilinx_usp{}_{}_x{}".format(variant, self.speed, self.nlanes)] *)
Definition phy_path (cls : Class) (speed : string) (nlanes : Z) : string :=
  "xilinx_usp" +:+ variant cls +:+ "_" +:+ speed +:+ "_x" +:+ pretty nlanes.

(** [do_finalize(self)]: [here] is the directory of the Python file
    ([os.path.abspath(os.path.dirname(__file__))]); the result is the
    platform, the module under construction gets the hard IP. *)
Definition do_finalize (cls : Class) (here : string) (self : t)
    (platform : list platform_call) : M (list platform_call) :=
  let platform :=
    if negb (external_hard_ip self) then
      add_sources platform
        (join here (phy_path cls (speed self) (nlanes self)))
        "pcie_usp.xci"
    else platform in
  USPPCIEPHY.do_finalize self ;;;
  ret platform.

End Sources.

(** * Properties *)

(** ** The HDL fragment *)

Section MigenFacts.

Implicit Types (σ acc : env) (st : stmt) (x : string) (w v i : Z).

Lemma testbit_trunc w v i :
  0 <= w -> Z.testbit (trunc w v) i = Z.testbit v i && bool_decide (0 <= i < w).
Proof.
  intros Hw. unfold trunc. rewrite Z.land_spec.
  destruct (Z.ltb_spec i 0) as [Hi|Hi].
  - rewrite !Z.testbit_neg_r by lia. reflexivity.
  - rewrite Z.testbit_ones_nonneg by lia.
    f_equal. case_bool_decide; lia.
Qed.

Lemma trunc_trunc w v : trunc w (trunc w v) = trunc w v.
Proof.
  unfold trunc. rewrite <- Z.land_assoc, Z.land_diag. reflexivity.
Qed.

Lemma trunc_range w v : 0 <= w -> 0 <= trunc w v < 2 ^ w.
Proof.
  intros Hw. unfold trunc. rewrite Z.land_ones by lia.
  apply Z.mod_pos_bound. lia.
Qed.

Lemma trunc_small w v : 0 <= v < 2 ^ w -> trunc w v = v.
Proof.
  intros Hv. unfold trunc.
  destruct (Z.ltb_spec w 0) as [Hw|Hw].
  - rewrite Z.pow_neg_r in Hv by lia. lia.
  - rewrite Z.land_ones by lia. apply Z.mod_small. lia.
Qed.

Lemma trunc_b2z w (b : bool) : 1 <= w -> trunc w (Z.b2z b) = Z.b2z b.
Proof.
  intros Hw. apply trunc_small. split; [destruct b; simpl; lia|].
  apply Z.lt_le_trans with (2 ^ 1); [destruct b; simpl; lia|].
  apply Z.pow_le_mono_r; lia.
Qed.

Lemma trunc_1 v : trunc 1 v = Z.b2z (Z.testbit v 0).
Proof.
  unfold trunc. rewrite Z.land_ones by lia. symmetry. apply Z.bit0_mod.
Qed.

Lemma read_range σ (s : Signal) : 0 <= nbits s -> 0 <= read σ s < 2 ^ nbits s.
Proof. intros. apply trunc_range. assumption. Qed.

Lemma trunc_read σ (s : Signal) : trunc (nbits s) (read σ s) = read σ s.
Proof. apply trunc_trunc. Qed.

Lemma trunc_read_at σ (s : Signal) w :
  nbits s = w -> trunc w (read σ s) = read σ s.
Proof. intros <-. apply trunc_read. Qed.

(** The value of [x] after a block: that of the last statement that writes
    [x], its previous value when there is none. *)
Lemma fold_exec_lookup stmts σ acc x :
  fold_left (fun acc st => exec_stmt σ st acc) stmts acc !! x
  = fold_left (fun r st => match write_of σ st x with
                           | Some v => Some v
                           | None => r
                           end) stmts (acc !! x).
Proof.
  revert acc. induction stmts as [|st stmts IH]; intros acc; [reflexivity|].
  cbn [fold_left]. rewrite IH. f_equal.
  assert (Ha : forall a : assign,
    exec_assign σ a acc !! x
    = match (if String.eqb (sig_name (lhs a)) x
             then Some (trunc (nbits (lhs a)) (eval σ (rhs a))) else None) with
      | Some v => Some v
      | None => acc !! x
      end).
  { intros a. unfold exec_assign.
    destruct (String.eqb_spec (sig_name (lhs a)) x) as [->|Hne].
    - apply lookup_insert_eq.
    - apply lookup_insert_ne. assumption. }
  destruct st as [a|test cases]; cbn [exec_stmt write_of].
  - apply Ha.
  - destruct (cases !! eval σ test); [apply Ha | reflexivity].
Qed.

Lemma exec_block_lookup stmts σ x :
  exec_block stmts σ !! x
  = fold_left (fun r st => match write_of σ st x with
                           | Some v => Some v
                           | None => r
                           end) stmts (σ !! x).
Proof. apply fold_exec_lookup. Qed.

(** The same, for the value read from a signal. *)
Lemma read_exec_block stmts σ (s : Signal) :
  read (exec_block stmts σ) s
  = trunc (nbits s)
      (default 0 (fold_left (fun r st => match write_of σ st (sig_name s) with
                                         | Some v => Some v
                                         | None => r
                                         end) stmts (σ !! sig_name s))).
Proof. unfold read. rewrite exec_block_lookup. reflexivity. Qed.

(** "The last writer wins" depends on what the statements of the block write
    only, and running it a second time on its own result changes nothing. *)
Lemma last_writer_ext (w w' : stmt -> option Z) stmts (r : option Z) :
  (forall st, st ∈ stmts -> w st = w' st) ->
  fold_left (fun r st => match w st with Some v => Some v | None => r end) stmts r
  = fold_left (fun r st => match w' st with Some v => Some v | None => r end) stmts r.
Proof.
  revert r. induction stmts as [|st stmts IH]; intros r Hw; [reflexivity|].
  cbn [fold_left]. rewrite (Hw st) by (apply elem_of_cons; left; reflexivity).
  apply IH. intros st' Hst'. apply Hw. apply elem_of_cons. right. exact Hst'.
Qed.

Lemma last_writer_idem (w : stmt -> option Z) stmts (r : option Z) :
  let run := fold_left (fun r st => match w st with Some v => Some v | None => r end)
                       stmts in
  run (run r) = run r.
Proof.
  cbv zeta. revert r. induction stmts as [|st stmts IH] using rev_ind; intros r;
    [reflexivity|].
  rewrite !fold_left_app. cbn [fold_left].
  destruct (w st); [reflexivity|]. apply IH.
Qed.

(** An edge with the reset of the domain deasserted, or in a domain none of
    whose registers has a reset, runs the statements of the domain. *)
Lemma tick_run cd m σ :
  read σ (ResetSignal cd) = 0 -> tick cd m σ = exec_block (sync_of cd m) σ.
Proof. intros Hrst. unfold tick. rewrite Hrst. cbn [Z.eqb]. f_equal. apply app_nil_r. Qed.

Lemma tick_no_resetcode cd m σ :
  resetcode cd m = [] -> tick cd m σ = exec_block (sync_of cd m) σ.
Proof.
  intros Hnone. unfold tick. rewrite Hnone.
  destruct (_ =? _); f_equal; apply app_nil_r.
Qed.

End MigenFacts.

(** ** [convert_size] *)

Section ConvertSize.

Variables (command size : Signal) (max_size : Z).

(** The six iterations of the loop, written out. *)
Lemma convert_size_unfold :
  convert_size command size max_size =
  let v0 := 128 in
  let v1 := Z.min (v0 * 2) max_size in
  let v2 := Z.min (v1 * 2) max_size in
  let v3 := Z.min (v2 * 2) max_size in
  let v4 := Z.min (v3 * 2) max_size in
  let v5 := Z.min (v4 * 2) max_size in
  SCase (ESig command)
    (<[5 := Eq_ size (Constant v5)]> (<[4 := Eq_ size (Constant v4)]>
    (<[3 := Eq_ size (Constant v3)]> (<[2 := Eq_ size (Constant v2)]>
    (<[1 := Eq_ size (Constant v1)]> (<[0 := Eq_ size (Constant v0)]> ∅)))))).
Proof. reflexivity. Qed.

(** With code [c] on [command], the statement writes the constant of branch
    [c] to [size], and nothing when there is no such branch. *)
Lemma write_of_convert_size σ x c :
  read σ command = c ->
  write_of σ (convert_size command size max_size) x =
  match case_const (convert_size command size max_size) c with
  | Some v =>
      if String.eqb (sig_name size) x
      then Some (trunc (nbits size) (trunc (bits_for v) v)) else None
  | None => None
  end.
Proof.
  intros Hc. rewrite convert_size_unfold. cbv zeta.
  cbn [write_of case_const eval]. rewrite Hc.
  match goal with |- context [?m !! c] => destruct (m !! c) as [a|] eqn:Ha end;
    [|reflexivity].
  repeat (apply lookup_insert_Some in Ha as [[_ <-]|[_ Ha]]; [reflexivity|]).
  rewrite lookup_empty in Ha. discriminate.
Qed.

Lemma write_of_convert_size_ne σ x :
  sig_name size <> x ->
  write_of σ (convert_size command size max_size) x = None.
Proof.
  intros Hne. rewrite (write_of_convert_size σ x _ eq_refl).
  destruct (case_const _ _); [|reflexivity].
  destruct (String.eqb_spec (sig_name size) x); [contradiction|reflexivity].
Qed.

End ConvertSize.

Lemma code_cases c : 0 <= c <= 5 -> c = 0 \/ c = 1 \/ c = 2 \/ c = 3 \/ c = 4 \/ c = 5.
Proof. lia. Qed.

(** The doubling rule of [convert_size], for any ceiling. *)
Lemma convert_size_rec command size max_size :
  let st := convert_size command size max_size in
  case_const st 0 = Some 128 /\
  (forall i, 1 <= i <= 5 ->
     exists p, case_const st (i - 1) = Some p /\
               case_const st i = Some (Z.min (p * 2) max_size)).
Proof.
  intros st. subst st. split; [reflexivity|].
  intros i Hi.
  destruct (code_cases (i - 1) ltac:(lia)) as [E|[E|[E|[E|[E|E]]]]];
    replace i with (i - 1 + 1) by lia; rewrite E.
  all: try lia.
  all: eexists; split; reflexivity.
Qed.

(** With ceiling 512 the branches are the entries of [size_table]. *)
Lemma convert_size_512 command size c :
  0 <= c <= 5 ->
  case_const (convert_size command size 512) c = size_table !! Z.to_nat c.
Proof.
  intros Hc.
  destruct (code_cases c Hc) as [->|[->|[->|[->|[->| ->]]]]]; reflexivity.
Qed.

(** A table entry, wrapped as a constant and assigned to a 16-bit register,
    is not truncated. *)
Lemma size_table_fits c v :
  size_table !! Z.to_nat c = Some v -> trunc 16 (trunc (bits_for v) v) = v.
Proof.
  unfold size_table.
  destruct (Z.to_nat c) as [|[|[|[|[|[|?]]]]]]; intros [= <-]; reflexivity.
Qed.

(** ** Concatenation *)

Section CatFacts.

Implicit Types (a c n i x y z : Z).

Lemma testbit_high a n i : 0 <= a < 2 ^ n -> n <= i -> Z.testbit a i = false.
Proof.
  intros Ha Hi.
  destruct (Z.ltb_spec n 0) as [Hn|Hn].
  - rewrite Z.pow_neg_r in Ha by lia. lia.
  - rewrite <- (Z.mod_small a (2 ^ n)) by lia.
    apply Z.mod_pow2_bits_high. lia.
Qed.

(** [Cat(a, c)] with [a] of [n] bits: bit [i] is bit [i] of [a] below [n],
    bit [i - n] of [c] from [n] on. *)
Lemma testbit_lor_shiftl a c n i :
  0 <= n -> 0 <= a < 2 ^ n ->
  Z.testbit (Z.lor a (Z.shiftl c n)) i
  = if i <? n then Z.testbit a i else Z.testbit c (i - n).
Proof.
  intros Hn Ha.
  destruct (Z.ltb_spec i 0) as [Hneg|Hpos].
  { rewrite !Z.testbit_neg_r by lia. destruct (i <? n); reflexivity. }
  rewrite Z.lor_spec.
  destruct (Z.ltb_spec i n) as [Hlt|Hge].
  - rewrite Z.shiftl_spec_low by lia. apply orb_false_r.
  - rewrite (testbit_high a n i) by lia. rewrite Z.shiftl_spec by lia.
    reflexivity.
Qed.

Lemma lor_shiftl_add a c n :
  0 <= n -> 0 <= a < 2 ^ n -> Z.lor a (Z.shiftl c n) = a + c * 2 ^ n.
Proof.
  intros Hn Ha. rewrite Z.shiftl_mul_pow2 by lia.
  rewrite <- Z.lxor_lor, <- Z.add_nocarry_lxor; try reflexivity.
  all: apply Z.bits_inj'; intros i Hi; rewrite Z.land_spec, Z.bits_0.
  all: destruct (Z.ltb_spec i n) as [Hlt|Hge].
  all: try (rewrite Z.mul_pow2_bits_low by lia; apply andb_false_r).
  all: rewrite (testbit_high a n i) by lia; reflexivity.
Qed.

(** The value of [Cat(f, d, b)] for a 3-bit [f], a 5-bit [d] and an 8-bit
    [b], assigned to a 16-bit signal. *)
Lemma cat3_value x y z :
  trunc 16 (Z.lor (trunc 3 x)
     (Z.shiftl (Z.lor (trunc 5 y)
        (Z.shiftl (Z.lor (trunc 8 z) (Z.shiftl 0 8)) 5)) 3))
  = trunc 3 x + 8 * trunc 5 y + 256 * trunc 8 z.
Proof.
  pose proof (trunc_range 3 x ltac:(lia)).
  pose proof (trunc_range 5 y ltac:(lia)).
  pose proof (trunc_range 8 z ltac:(lia)).
  rewrite Z.shiftl_0_l, Z.lor_0_r.
  rewrite !lor_shiftl_add by lia.
  change (2 ^ 3) with 8 in *. change (2 ^ 5) with 32 in *.
  change (2 ^ 8) with 256 in *.
  rewrite trunc_small; [lia|].
  change (2 ^ 16) with 65536. lia.
Qed.

Lemma cat3_testbit x y z i :
  Z.testbit
    (trunc 16 (Z.lor (trunc 3 x)
       (Z.shiftl (Z.lor (trunc 5 y)
          (Z.shiftl (Z.lor (trunc 8 z) (Z.shiftl 0 8)) 5)) 3))) i
  = if i <? 3 then Z.testbit (trunc 3 x) i
    else if i <? 8 then Z.testbit (trunc 5 y) (i - 3)
    else Z.testbit (trunc 8 z) (i - 8).
Proof.
  pose proof (trunc_range 3 x ltac:(lia)) as Hx.
  pose proof (trunc_range 5 y ltac:(lia)) as Hy.
  pose proof (trunc_range 8 z ltac:(lia)) as Hz.
  rewrite Z.shiftl_0_l, Z.lor_0_r.
  rewrite testbit_trunc by lia.
  rewrite !testbit_lor_shiftl by lia.
  destruct (Z.ltb_spec i 3), (Z.ltb_spec (i - 3) 5), (Z.ltb_spec i 8); try lia.
  - destruct (Z.ltb_spec i 0).
    + rewrite Z.testbit_neg_r by lia. reflexivity.
    + rewrite bool_decide_eq_true_2 by lia. apply andb_true_r.
  - rewrite bool_decide_eq_true_2 by lia. apply andb_true_r.
  - replace (i - 3 - 5) with (i - 8) by lia.
    case_bool_decide; [apply andb_true_r|].
    rewrite (testbit_high (trunc 8 z) 8 (i - 8)) by lia. reflexivity.
Qed.

End CatFacts.

(** ** The constructed PHY *)

Arguments convert_size : simpl never.
Arguments connect : simpl never.
Arguments sink : simpl never.
Arguments source : simpl never.
Arguments insert : simpl never.
Arguments read : simpl never.
Arguments trunc : simpl never.

(** The widths of the supported configurations pass the check of [Signal]. *)
Lemma supported_width_positive dw :
  dw ∈ [64; 128; 256; 512] ->
  forallb (fun '(_, w) => 0 <? w) (payload_layout (phy_layout dw)) = true.
Proof.
  intros Hdw.
  repeat (apply elem_of_cons in Hdw as [->|Hdw]; [reflexivity|]).
  apply elem_of_nil in Hdw. contradiction.
Qed.

(** A width that passes the check of [Signal] for both fields of
    [phy_layout] has at least one whole byte. *)
Lemma phy_layout_positive dw :
  forallb (fun '(_, w) => 0 <? w) (payload_layout (phy_layout dw)) = true
  <-> 8 <= dw.
Proof.
  cbn [payload_layout forallb]. rewrite !andb_true_iff, !Z.ltb_lt.
  split.
  - intros (_ & Hbe & _). Z.to_euclidean_division_equations. lia.
  - intros Hdw. split; [lia|]. split; [|reflexivity].
    Z.to_euclidean_division_equations. lia.
Qed.

(** The checks a successful construction has passed: the endpoints were
    built and the four assertions hold. *)
Ltac new_checks H :=
  unfold new, __init__ in H;
  unfold bind, assert_, ret, raise, stream_Endpoint in H;
  repeat match type of H with
         | context [forallb ?f ?l] =>
             revert H; destruct (forallb f l) eqn:?; intros H; [| discriminate H]
         end;
  repeat (case_bool_decide; [| discriminate H]).

(** From a successful construction to the netlist it built: the module is
    the one [__init__] accumulates, for each shape of the pads and of the
    clock domain. *)
Ltac new_inv H :=
  new_checks H;
  destruct (rst_n _) eqn:?; destruct (decide (_ = "pcie"));
  simpl in H;
  injection H as <- <-.

(** Membership in a list given by its elements. *)
Ltac in_list :=
  apply list_elem_of_In; cbn [In]; repeat first [left; reflexivity | right].

(** The value of a signal after the combinatorial statements of a concrete
    netlist: the statements are scanned for the one that drives the signal;
    what is read from the environment is left as it is. *)
Ltac settle_eval :=
  unfold settle; rewrite !read_exec_block;
  lazy -[read trunc Z.testbit Z.b2z Z.div Z.land Z.ones
         m_axis_cq_tuser m_axis_cq_tlast m_axis_rc_tuser m_axis_rc_tlast];
  rewrite ?trunc_trunc.

(** *** Negotiated sizes *)

(** C1. For every size-class code c in 0..5 the size the code computes for the
    max-request and for the max-payload limit, both with ceiling 512, is the
    entry c of the table 128, 256, 512, 512, 512, 512: the constant of branch
    0 is 128, the constant of branch i is min(2 * constant of branch i-1,
    512), and after a clock edge of the pcie domain with the reset of the
    domain deasserted each size register holds the table entry of the code
    the hard IP reports for it. *)
Theorem negotiated_size_table pads speed dw b0 cd pdw self m :
  new pads speed dw b0 cd pdw = inr (self, m) ->
  let rr := convert_size cfg_max_read_req (max_request_size self) 512 in
  let mp := convert_size cfg_max_payload_size (max_payload_size self) 512 in
  (("pcie", rr) ∈ sync m /\ ("pcie", mp) ∈ sync m) /\
  (forall st, st = rr \/ st = mp ->
     case_const st 0 = Some 128 /\
     (forall i, 1 <= i <= 5 ->
        exists p, case_const st (i - 1) = Some p /\
                  case_const st i = Some (Z.min (p * 2) 512)) /\
     (forall c, 0 <= c <= 5 -> case_const st c = size_table !! Z.to_nat c)) /\
  (forall σ c, read σ (ResetSignal "pcie") = 0 -> 0 <= c <= 5 ->
     (read σ cfg_max_read_req = c ->
      Some (read (tick "pcie" m σ) (max_request_size self))
      = size_table !! Z.to_nat c) /\
     (read σ cfg_max_payload_size = c ->
      Some (read (tick "pcie" m σ) (max_payload_size self))
      = size_table !! Z.to_nat c)).
Proof.
  intros H rr mp. subst rr mp.
  assert (Hrun : forall σ, read σ (ResetSignal "pcie") = 0 ->
            tick "pcie" m σ = exec_block (sync_of "pcie" m) σ)
    by (intros σ; apply tick_run).
  new_inv H.
  all: cbn [sync max_request_size max_payload_size].
  all: split; [split; rewrite !elem_of_cons; auto|].
  all: split;
    [ intros st [-> | ->];
      (split; [apply convert_size_rec|]);
      (split; [apply convert_size_rec | intros c Hc; apply convert_size_512, Hc]) |].
  all: intros σ c Hrst Hc; rewrite (Hrun σ Hrst); clear Hrun.
  all: rewrite !read_exec_block.
  all: match goal with |- context [sync_of "pcie" ?m] =>
     change (sync_of "pcie" m) with
       [convert_size cfg_max_read_req (mkSignal "max_request_size" 16) 512;
        convert_size cfg_max_payload_size (mkSignal "max_payload_size" 16) 512;
        eq_ (mkSignal "id" 16)
          (ECat [ESig function_number; ESig device_number; ESig bus_number])] end.
  all: cbn [fold_left].
  all: split; intros Hr.
  all: rewrite (write_of_convert_size _ _ _ _ _ c Hr).
  all: try rewrite (write_of_convert_size_ne cfg_max_payload_size) by discriminate.
  all: try rewrite (write_of_convert_size_ne cfg_max_read_req) by discriminate.
  all: rewrite (convert_size_512 _ _ c Hc).
  all: destruct (size_table !! Z.to_nat c) as [v|] eqn:Ev;
    [ | destruct (code_cases c Hc) as [->|[->|[->|[->|[->| ->]]]]]; discriminate Ev ].
  all: cbn; rewrite trunc_trunc, (size_table_fits c v Ev); reflexivity.
Qed.

(** *** The MSI stream *)

(** C3. When the application clock domain [cd] is not the pcie domain, the
    MSI stream goes through an asynchronous FIFO of depth 4 (a power of two)
    written in [cd] and read in the pcie domain: [msi] is connected to its
    sink and the hard IP takes the interrupts from its source.  When [cd] is
    the pcie domain, no FIFO is instantiated and the hard IP takes the
    interrupts from [msi] itself. *)
Theorem msi_clock_domain_crossing pads speed dw b0 cd pdw self m :
  new pads speed dw b0 cd pdw = inr (self, m) ->
  (cd <> "pcie" ->
   exists q R,
     List.filter (fun q => is_async_fifo (inst q)) (submodules m) = [q] /\
     inst q = ClockDomainsRenamer R (AsyncFIFO msi_layout 4) /\
     (R !! "write" = Some cd /\ R !! "read" = Some "pcie") /\
     4 = 2 ^ 2 /\
     Forall (fun st => st ∈ comb m) (connect (msi self) (sink q)) /\
     (("i_cfg_interrupt_msi_int_valid", AExpr (ESig (valid (source q))))
        ∈ pcie_phy_params self /\
      ("i_cfg_interrupt_msi_int", AExpr (ESig (dat (source q))))
        ∈ pcie_phy_params self /\
      ("o_cfg_interrupt_msi_sent", AExpr (ESig (ready (source q))))
        ∈ pcie_phy_params self) /\
     (forall σ,
        read (settle m σ) (valid (sink q)) = read σ (valid (msi self)) /\
        read (settle m σ) (dat (sink q)) = read σ (dat (msi self)) /\
        read (settle m σ) (ready (msi self)) = read σ (ready (sink q)))) /\
  (cd = "pcie" ->
   List.filter (fun q => is_async_fifo (inst q)) (submodules m) = [] /\
   (("i_cfg_interrupt_msi_int_valid", AExpr (ESig (valid (msi self))))
      ∈ pcie_phy_params self /\
    ("i_cfg_interrupt_msi_int", AExpr (ESig (dat (msi self))))
      ∈ pcie_phy_params self /\
    ("o_cfg_interrupt_msi_sent", AExpr (ESig (ready (msi self))))
      ∈ pcie_phy_params self)).
Proof.
  intros H. new_inv H.
  all: cbn [submodules comb msi pcie_phy_params].
  all: split; intros Hcd; try contradiction.
  (* same domain: the stream is used as it is *)
  1, 3: split; [reflexivity|]; repeat split; in_list.
  (* two domains: the FIFO *)
  all: eexists _, _; split; [reflexivity|].
  all: split; [reflexivity|].
  all: split; [split; reflexivity|].
  all: split; [reflexivity|].
  all: split; [repeat (constructor; [in_list|]); constructor|].
  all: split; [repeat split; in_list|].
  all: intros σ; settle_eval.
  all: repeat split; apply trunc_read.
Qed.

(** *** Rejected configurations *)

(** C4, as worded, fails: with the unsupported speed "gen1" the constructor
    raises an exception that carries no message. *)
Lemma unsupported_speed_has_no_description :
  ~ rejection_with_description_claim pads_x4 "gen1" 64 MB "sys" None.
Proof.
  intros [_ Hdescr].
  destruct Hdescr as (e & msg & He & Hmsg).
  - intros [Hspeed _].
    repeat (apply elem_of_cons in Hspeed as [Hspeed|Hspeed];
            [discriminate Hspeed|]).
    apply elem_of_nil in Hspeed. exact Hspeed.
  - vm_compute in He. injection He as <-. discriminate Hmsg.
Qed.

(** What the constructor raises.  An application data width below 8 is
    caught first, by [Signal], when the endpoints are built (lines 22-25);
    every other unsupported configuration fails one of the four [assert]
    statements (lines 54-57), which have no message. *)
Lemma construction_failure pads speed dw b0 cd pdw e :
  new pads speed dw b0 cd pdw = inl e ->
  if dw <? 8
  then e = ValueError "Signal width must be a strictly positive integer"
  else e = AssertionError None.
Proof.
  unfold new, __init__, bind, assert_, ret, raise, stream_Endpoint.
  destruct (forallb _ (payload_layout (phy_layout dw))) eqn:Hw.
  - apply phy_layout_positive in Hw.
    destruct (Z.ltb_spec dw 8) as [Hlt|_]; [lia|].
    destruct (forallb _ (payload_layout msi_layout)) eqn:Hmsi;
      [|discriminate Hmsi].
    repeat case_bool_decide; try (intros [= <-]; reflexivity).
    destruct (rst_n pads); destruct (decide (cd = "pcie")); simpl;
      intros [=].
  - destruct (Z.ltb_spec dw 8) as [_|Hge].
    + intros [= <-]. reflexivity.
    + apply phy_layout_positive in Hge. congruence.
Qed.

(** C4, amended. Construction fails if and only if the configuration is
    unsupported (speed not gen2, gen3 or gen4; lane count not 1, 2, 4, 8 or
    16; application data width or PCIe data width not 64, 128, 256 or 512);
    the failure is raised by the constructor, at construction time: a
    rejected configuration gives no adapter and no netlist. *)
Theorem construction_fails_iff_unsupported pads speed dw b0 cd pdw :
  ((exists self m, new pads speed dw b0 cd pdw = inr (self, m))
   <-> supported pads speed dw pdw) /\
  ((exists e, new pads speed dw b0 cd pdw = inl e)
   <-> ~ supported pads speed dw pdw).
Proof.
  unfold supported, new, __init__, bind, assert_, ret, raise, stream_Endpoint.
  change (default dw pdw) with (match pdw with None => dw | Some w => w end).
  destruct (forallb _ (payload_layout (phy_layout dw))) eqn:Hw.
  2: { assert (Hdw : ~ dw ∈ [64; 128; 256; 512])
         by (intros Hdw; apply supported_width_positive in Hdw; congruence).
       split; (split; [|tauto || eauto]).
       - intros (? & ? & [=]).
       - tauto. }
  destruct (forallb _ (payload_layout msi_layout)) eqn:Hmsi;
    [|discriminate Hmsi].
  repeat case_bool_decide.
  2-5: split; [split; [intros (? & ? & [=]) | tauto]|];
       (split; [tauto | eauto]).
  destruct (rst_n pads); destruct (decide (cd = "pcie")); simpl.
  all: split; [split; [tauto | eauto]|].
  all: split; [intros (? & [=]) | tauto].
Qed.

(** *** The identity tag *)

(** The tag register after a clock edge of the pcie domain, the reset of the
    domain deasserted. *)
Lemma tick_pcie_id pads speed dw b0 cd pdw self m σ :
  new pads speed dw b0 cd pdw = inr (self, m) ->
  read σ (ResetSignal "pcie") = 0 ->
  id self = mkSignal "id" 16 /\
  read (tick "pcie" m σ) (id self)
  = trunc 16 (Z.lor (read σ function_number)
       (Z.shiftl (Z.lor (read σ device_number)
          (Z.shiftl (Z.lor (read σ bus_number) (Z.shiftl 0 8)) 5)) 3)).
Proof.
  intros H Hrst. rewrite (tick_run _ _ _ Hrst). clear Hrst. new_inv H.
  all: split; [reflexivity|].
  all: rewrite read_exec_block.
  all: match goal with |- context [sync_of "pcie" ?m] =>
     change (sync_of "pcie" m) with
       [convert_size cfg_max_read_req (mkSignal "max_request_size" 16) 512;
        convert_size cfg_max_payload_size (mkSignal "max_payload_size" 16) 512;
        eq_ (mkSignal "id" 16)
          (ECat [ESig function_number; ESig device_number; ESig bus_number])] end.
  all: cbn [fold_left USPPCIEPHY.id sig_name nbits].
  all: rewrite !write_of_convert_size_ne by discriminate.
  all: cbn; apply trunc_trunc.
Qed.

(** C5. The 16-bit identity tag is the concatenation of the function number
    (bits 0..2), the device number (bits 3..7) and the bus number (bits
    8..15); it is recomputed from the three sub-fields at every clock edge of
    the pcie domain with the reset of the domain deasserted, and the bits of
    a sub-field in the tag depend on that sub-field alone, so changing one
    sub-field leaves the bit positions of the other two unchanged. *)
Theorem identity_tag_fields pads speed dw b0 cd pdw self m :
  new pads speed dw b0 cd pdw = inr (self, m) ->
  nbits (id self) = 16 /\
  (forall σ, read σ (ResetSignal "pcie") = 0 ->
     let tag := read (tick "pcie" m σ) (id self) in
     let f := read σ function_number in
     let d := read σ device_number in
     let b := read σ bus_number in
     tag = f + 8 * d + 256 * b /\
     (forall i, 0 <= i < 3 -> Z.testbit tag i = Z.testbit f i) /\
     (forall i, 3 <= i < 8 -> Z.testbit tag i = Z.testbit d (i - 3)) /\
     (forall i, 8 <= i < 16 -> Z.testbit tag i = Z.testbit b (i - 8))) /\
  (forall σ1 σ2,
     read σ1 (ResetSignal "pcie") = 0 -> read σ2 (ResetSignal "pcie") = 0 ->
     let tag1 := read (tick "pcie" m σ1) (id self) in
     let tag2 := read (tick "pcie" m σ2) (id self) in
     (read σ1 function_number = read σ2 function_number ->
      forall i, 0 <= i < 3 -> Z.testbit tag1 i = Z.testbit tag2 i) /\
     (read σ1 device_number = read σ2 device_number ->
      forall i, 3 <= i < 8 -> Z.testbit tag1 i = Z.testbit tag2 i) /\
     (read σ1 bus_number = read σ2 bus_number ->
      forall i, 8 <= i < 16 -> Z.testbit tag1 i = Z.testbit tag2 i)).
Proof.
  intros H.
  assert (Hbits : forall σ, read σ (ResetSignal "pcie") = 0 ->
     let tag := read (tick "pcie" m σ) (id self) in
     tag = read σ function_number + 8 * read σ device_number
           + 256 * read σ bus_number /\
     (forall i, 0 <= i < 3 -> Z.testbit tag i = Z.testbit (read σ function_number) i) /\
     (forall i, 3 <= i < 8 -> Z.testbit tag i = Z.testbit (read σ device_number) (i - 3)) /\
     (forall i, 8 <= i < 16 -> Z.testbit tag i = Z.testbit (read σ bus_number) (i - 8))).
  { intros σ Hrst tag. subst tag.
    destruct (tick_pcie_id _ _ _ _ _ _ _ _ σ H Hrst) as [_ ->].
    unfold read, function_number, device_number, bus_number; cbn [nbits sig_name].
    split; [apply cat3_value|].
    repeat split; intros i Hi; rewrite cat3_testbit.
    all: destruct (Z.ltb_spec i 3), (Z.ltb_spec i 8); try lia; reflexivity. }
  assert (Hrst0 : read (∅ : env) (ResetSignal "pcie") = 0) by reflexivity.
  split; [destruct (tick_pcie_id _ _ _ _ _ _ _ _ ∅ H Hrst0) as [-> _]; reflexivity|].
  split; [exact Hbits|].
  intros σ1 σ2 Hrst1 Hrst2 tag1 tag2. subst tag1 tag2.
  destruct (Hbits σ1 Hrst1) as (_ & F1 & D1 & B1).
  destruct (Hbits σ2 Hrst2) as (_ & F2 & D2 & B2).
  repeat split; intros E i Hi.
  - rewrite F1, F2, E by lia. reflexivity.
  - rewrite D1, D2, E by lia. reflexivity.
  - rewrite B1, B2, E by lia. reflexivity.
Qed.

(** *** The status registers *)

(** The statements of the sys domain are the registers of the five status
    synchronisers, and each status signal is driven from the last register of
    its synchroniser. *)
Lemma status_synchronisers pads speed dw b0 cd pdw self m :
  new pads speed dw b0 cd pdw = inr (self, m) ->
  let lnk := mkSignal "_link_up_status" 1 in
  let bme := mkSignal "_bus_master_enable_status" 1 in
  let msi := mkSignal "_msi_enable_status" 1 in
  let mrs := mkSignal "_max_request_size_status" 16 in
  let mps := mkSignal "_max_payload_size_status" 16 in
  let rs := mkSignal "max_request_size" 16 in
  let ps := mkSignal "max_payload_size" 16 in
  (status (_link_up self) = lnk /\ status (_bus_master_enable self) = bme /\
   status (_msi_enable self) = msi /\
   status (_max_request_size self) = mrs /\
   status (_max_payload_size self) = mps /\
   max_request_size self = rs /\ max_payload_size self = ps) /\
  sync_of "sys" m
  = flat_map (special_sync "sys")
      [ MultiReg (ESig link_up) lnk;
        MultiReg (ESig cfg_function_status) bme;
        MultiReg (ESig msi_enable) msi;
        MultiReg (ESig rs) mrs;
        MultiReg (ESig ps) mps ] /\
  (forall σ,
     read (settle m σ) lnk
     = trunc 1 (read σ (multireg_reg (ESig link_up) lnk 1)) /\
     read (settle m σ) bme
     = trunc 1 (read σ (multireg_reg (ESig cfg_function_status) bme 1)) /\
     read (settle m σ) msi
     = trunc 1 (read σ (multireg_reg (ESig msi_enable) msi 1)) /\
     read (settle m σ) mrs
     = trunc 16 (read σ (multireg_reg (ESig rs) mrs 1)) /\
     read (settle m σ) mps
     = trunc 16 (read σ (multireg_reg (ESig ps) mps 1))).
Proof.
  intros H. new_inv H.
  all: split; [repeat split; reflexivity|].
  all: split; [reflexivity|].
  all: intros σ; settle_eval; repeat split; reflexivity.
Qed.

(** The registers of the sys domain are those of the synchronisers, which
    have no reset: an edge of the sys domain runs the statements of the
    domain, whatever the reset of the domain is. *)
Lemma tick_sys pads speed dw b0 cd pdw self m σ :
  new pads speed dw b0 cd pdw = inr (self, m) ->
  tick "sys" m σ = exec_block (sync_of "sys" m) σ.
Proof.
  intros H. apply tick_no_resetcode. new_inv H; reflexivity.
Qed.

(** Two clock edges of the sys domain, then the combinatorial statements, on
    a concrete list of synchroniser registers. *)
Ltac two_edges :=
  rewrite read_exec_block; lazy -[read trunc Z.testbit Z.b2z exec_block];
  rewrite read_exec_block; lazy -[read trunc Z.testbit Z.b2z exec_block];
  rewrite !trunc_trunc.

(** The link, MSI and size status registers hold, after two clock edges of the
    sys domain, the value their source signal had. *)
Lemma status_relays pads speed dw b0 cd pdw self m σ :
  new pads speed dw b0 cd pdw = inr (self, m) ->
  let σ' := settle m (tick "sys" m (tick "sys" m σ)) in
  read σ' (status (_link_up self)) = read σ link_up /\
  read σ' (status (_msi_enable self)) = read σ msi_enable /\
  read σ' (status (_max_request_size self)) = read σ (max_request_size self) /\
  read σ' (status (_max_payload_size self)) = read σ (max_payload_size self).
Proof.
  intros H σ'. subst σ'.
  destruct (status_synchronisers _ _ _ _ _ _ _ _ H)
    as ((-> & _ & -> & -> & -> & -> & ->) & Hsys & Hsettle).
  destruct (Hsettle (tick "sys" m (tick "sys" m σ)))
    as (-> & _ & -> & -> & ->).
  rewrite !(fun σ => tick_sys _ _ _ _ _ _ _ _ σ H), Hsys. clear.
  repeat split; two_edges.
  - apply (trunc_read_at σ link_up 1 eq_refl).
  - apply (trunc_read_at σ msi_enable 1 eq_refl).
  - apply (trunc_read_at σ (mkSignal "max_request_size" 16) 16 eq_refl).
  - apply (trunc_read_at σ (mkSignal "max_payload_size" 16) 16 eq_refl).
Qed.

(** C7. The register described as the bus-mastering status (1: bus mastering
    enabled) is the output of a two-stage synchroniser whose input is the
    whole 16-bit function-status word of the hard IP; the output is one bit
    wide, so after two clock edges of the sys domain it holds bit 0 of the
    word, whatever the other bits are. *)
Theorem bus_master_enable_status pads speed dw b0 cd pdw self m :
  new pads speed dw b0 cd pdw = inr (self, m) ->
  csr_description (_bus_master_enable self)
  = "Bus Mastering Status. ``1``: Bus Mastering enabled." /\
  MultiReg (ESig cfg_function_status) (status (_bus_master_enable self))
    ∈ specials m /\
  ("o_cfg_function_status", AExpr (ESig cfg_function_status))
    ∈ pcie_phy_params self /\
  nbits cfg_function_status = 16 /\
  nbits (status (_bus_master_enable self)) = 1 /\
  (forall σ,
     let σ' := settle m (tick "sys" m (tick "sys" m σ)) in
     read σ' (status (_bus_master_enable self))
     = Z.b2z (Z.testbit (read σ cfg_function_status) 0)).
Proof.
  intros H.
  destruct (status_synchronisers _ _ _ _ _ _ _ _ H)
    as ((_ & Hbme & _) & Hsys & Hsettle).
  split; [|split; [|split; [|split; [|split]]]].
  6: { intros σ σ'. subst σ'. rewrite Hbme.
       destruct (Hsettle (tick "sys" m (tick "sys" m σ))) as (_ & -> & _).
       rewrite !(fun σ => tick_sys _ _ _ _ _ _ _ _ σ H), Hsys. clear.
       two_edges.
       change (mkSignal "cfg_function_status" 16) with cfg_function_status.
       rewrite (trunc_read_at σ cfg_function_status 16 eq_refl).
       apply trunc_1. }
  all: new_inv H; cbn [specials _bus_master_enable pcie_phy_params].
  all: first [reflexivity | in_list].
Qed.

(** *** The datapaths *)

(** C8. The adapter instantiates exactly four width-conversion datapaths.
    Two are egress (TX) datapaths from the application width to the PCIe
    width: rq_datapath, fed from req_sink, and cc_datapath, fed from
    cmp_sink.  Two are ingress (RX) datapaths from the PCIe width to the
    application width: cq_datapath, which drives req_source, and
    rc_datapath, which drives cmp_source. *)
Theorem four_datapaths pads speed dw b0 cd pdw self m :
  new pads speed dw b0 cd pdw = inr (self, m) ->
  let pw := default dw pdw in
  let rq := rq_datapath self in
  let cc := cc_datapath self in
  let cq := cq_datapath self in
  let rc := rc_datapath self in
  List.filter (fun q => is_datapath (inst q)) (submodules m) = [cc; rq; cq; rc] /\
  (inst rq = PHYTXDatapath dw pw cd /\ inst cc = PHYTXDatapath dw pw cd /\
   inst cq = PHYRXDatapath dw pw cd /\ inst rc = PHYRXDatapath dw pw cd) /\
  (description (req_sink self) = phy_layout dw /\
   description (cmp_sink self) = phy_layout dw /\
   description (req_source self) = phy_layout dw /\
   description (cmp_source self) = phy_layout dw) /\
  (forall q, q = rq \/ q = cc ->
     description (sink q) = phy_layout dw /\
     description (source q) = phy_layout pw) /\
  (forall q, q = cq \/ q = rc ->
     description (sink q) = phy_layout pw /\
     description (source q) = phy_layout dw) /\
  (Forall (fun st => st ∈ comb m) (connect (req_sink self) (sink rq)) /\
   Forall (fun st => st ∈ comb m) (connect (cmp_sink self) (sink cc)) /\
   Forall (fun st => st ∈ comb m) (connect (source cq) (req_source self)) /\
   Forall (fun st => st ∈ comb m) (connect (source rc) (cmp_source self))) /\
  (s_axis_rq self = source rq /\ s_axis_cc self = source cc /\
   m_axis_cq self = sink cq /\ m_axis_rc self = sink rc) /\
  (forall σ,
     let σ' := settle m σ in
     (read σ' (valid (sink rq)) = read σ (valid (req_sink self)) /\
      read σ' (dat (sink rq)) = read σ (dat (req_sink self))) /\
     (read σ' (valid (sink cc)) = read σ (valid (cmp_sink self)) /\
      read σ' (dat (sink cc)) = read σ (dat (cmp_sink self))) /\
     (read σ' (valid (req_source self)) = read σ (valid (source cq)) /\
      read σ' (dat (req_source self)) = read σ (dat (source cq))) /\
     (read σ' (valid (cmp_source self)) = read σ (valid (source rc)) /\
      read σ' (dat (cmp_source self)) = read σ (dat (source rc)))).
Proof.
  intros H pw rq cc cq rc. subst pw rq cc cq rc. new_inv H.
  all: cbn [rq_datapath cc_datapath cq_datapath rc_datapath submodules comb
            req_sink cmp_sink req_source cmp_source
            s_axis_rq s_axis_cc m_axis_cq m_axis_rc].
  all: split; [reflexivity|].
  all: split; [destruct pdw; repeat split; reflexivity|].
  all: split; [repeat split; reflexivity|].
  all: split; [intros q [-> | ->]; destruct pdw; split; reflexivity|].
  all: split; [intros q [-> | ->]; destruct pdw; split; reflexivity|].
  all: split; [repeat split; repeat (constructor; [in_list|]); constructor|].
  all: split; [repeat split; reflexivity|].
  all: intros σ; settle_eval.
  all: repeat split; try apply trunc_read.
Qed.

(** C9. When [pcie_data_width] is not given, it is the application data
    width: the width-conversion datapaths among the submodules are the two
    egress datapaths cc_datapath and rq_datapath and the two ingress
    datapaths cq_datapath and rc_datapath, each built with the application
    data width as core width and as PCIe width, so its sink and its source
    have the same description; there is no other datapath, and the hard IP is
    given that width. *)
Theorem pcie_data_width_default pads speed dw b0 cd self m :
  new pads speed dw b0 cd None = inr (self, m) ->
  data_width self = dw /\
  pcie_data_width self = data_width self /\
  (let adapters :=
     [cc_datapath self; rq_datapath self; cq_datapath self; rc_datapath self] in
   List.filter (fun q => is_datapath (inst q)) (submodules m) = adapters /\
   map inst adapters
   = [ PHYTXDatapath dw dw cd; PHYTXDatapath dw dw cd;
       PHYRXDatapath dw dw cd; PHYRXDatapath dw dw cd ] /\
   Forall (fun q => description (sink q) = phy_layout dw /\
                    description (source q) = phy_layout dw) adapters) /\
  (forall q, q ∈ submodules m -> is_datapath (inst q) = true ->
     (inst q = PHYTXDatapath dw dw cd \/ inst q = PHYRXDatapath dw dw cd) /\
     sink_layout (inst q) = phy_layout dw /\
     source_layout (inst q) = phy_layout dw) /\
  ("p_C_DATA_WIDTH", AInt dw) ∈ pcie_phy_params self.
Proof.
  intros H. new_inv H.
  all: cbn [data_width pcie_data_width submodules pcie_phy_params
            cc_datapath rq_datapath cq_datapath rc_datapath].
  all: split; [reflexivity|].
  all: split; [reflexivity|].
  all: split;
    [ cbv zeta; split; [reflexivity|]; split; [reflexivity|];
      repeat (constructor; [split; reflexivity|]); constructor |].
  all: split; [|in_list].
  all: intros q Hq Hdp.
  all: repeat (apply elem_of_cons in Hq as [->|Hq];
               [cbn; try discriminate Hdp; auto|]).
  all: apply elem_of_nil in Hq; contradiction.
Qed.

(** C10. For the inbound request stream (cq) and the inbound completion
    stream (rc), the first flag at the sink of the ingress datapath is bit 14
    of the 22-bit tuser signal the hard IP drives for that stream, and the
    last flag is its tlast signal, whatever the values of the signals. *)
Theorem ingress_first_last pads speed dw b0 cd pdw self m :
  new pads speed dw b0 cd pdw = inr (self, m) ->
  (m_axis_cq self = sink (cq_datapath self) /\
   m_axis_rc self = sink (rc_datapath self)) /\
  (nbits m_axis_cq_tuser = 22 /\ nbits m_axis_rc_tuser = 22) /\
  (("o_m_axis_cq_tuser", AExpr (ESig m_axis_cq_tuser)) ∈ pcie_phy_params self /\
   ("o_m_axis_cq_tlast", AExpr (ESig m_axis_cq_tlast)) ∈ pcie_phy_params self /\
   ("o_m_axis_rc_tuser", AExpr (ESig m_axis_rc_tuser)) ∈ pcie_phy_params self /\
   ("o_m_axis_rc_tlast", AExpr (ESig m_axis_rc_tlast)) ∈ pcie_phy_params self) /\
  (forall σ,
     let σ' := settle m σ in
     read σ' (first (m_axis_cq self)) = Z.b2z (Z.testbit (read σ m_axis_cq_tuser) 14) /\
     read σ' (last (m_axis_cq self)) = read σ m_axis_cq_tlast /\
     read σ' (first (m_axis_rc self)) = Z.b2z (Z.testbit (read σ m_axis_rc_tuser) 14) /\
     read σ' (last (m_axis_rc self)) = read σ m_axis_rc_tlast).
Proof.
  intros H. new_inv H.
  all: cbn [m_axis_cq m_axis_rc cq_datapath rc_datapath pcie_phy_params].
  all: split; [split; reflexivity|].
  all: split; [split; reflexivity|].
  all: split; [repeat split; in_list|].
  all: intros σ; settle_eval.
  all: rewrite !trunc_b2z by lia.
  all: repeat split; apply trunc_read.
Qed.

(** ** The default profile on a four-lane connector *)

(** [USPPCIEPHY(platform, pads)] with the default arguments succeeds. *)
Lemma example_phy :
  { r : t * Module_ | new pads_x4 "gen2" 64 MB "sys" None = inr r }.
Proof. eexists. vm_compute. reflexivity. Defined.

(** The default profile, out of reset: code 2 gives a max request size of
    512 bytes, code 1 a max payload size of 256 bytes. *)
Lemma negotiated_size_table_witness :
  exists self m,
    new pads_x4 "gen2" 64 MB "sys" None = inr (self, m) /\
    read (tick "pcie" m (<["cfg_max_read_req" := 2]> (<["pcie_rst" := 0]> ∅)))
         (max_request_size self) = 512 /\
    read (tick "pcie" m (<["cfg_max_payload_size" := 1]> (<["pcie_rst" := 0]> ∅)))
         (max_payload_size self) = 256.
Proof.
  destruct example_phy as [[self m] E]. exists self, m. split; [exact E|].
  destruct (negotiated_size_table _ _ _ _ _ _ _ _ E) as (_ & _ & Hsim).
  split.
  - pose proof (Hsim (<["cfg_max_read_req" := 2]> (<["pcie_rst" := 0]> ∅)) 2)
      as Hrr.
    destruct (Hrr eq_refl ltac:(lia)) as [Hrr' _].
    specialize (Hrr' eq_refl). injection Hrr' as Hrr'. exact Hrr'.
  - pose proof (Hsim (<["cfg_max_payload_size" := 1]> (<["pcie_rst" := 0]> ∅)) 1)
      as Hmp.
    destruct (Hmp eq_refl ltac:(lia)) as [_ Hmp'].
    specialize (Hmp' eq_refl). injection Hmp' as Hmp'. exact Hmp'.
Defined.

(** The default profile has the application in the sys domain: the MSI FIFO
    is there, written in sys and read in pcie. *)
Lemma msi_clock_domain_crossing_witness :
  exists self m,
    new pads_x4 "gen2" 64 MB "sys" None = inr (self, m) /\
    exists q R,
      List.filter (fun q => is_async_fifo (inst q)) (submodules m) = [q] /\
      inst q = ClockDomainsRenamer R (AsyncFIFO msi_layout 4) /\
      R !! "write" = Some "sys" /\ R !! "read" = Some "pcie".
Proof.
  destruct example_phy as [[self m] E]. exists self, m. split; [exact E|].
  destruct (msi_clock_domain_crossing _ _ _ _ _ _ _ _ E) as [Hcdc _].
  destruct (Hcdc ltac:(discriminate)) as (q & R & Hq & Hinst & [Hw Hr] & _).
  exists q, R. auto.
Defined.

(** Out of reset, function 5 of device 3 on bus 1 has the tag 0x011d. *)
Lemma identity_tag_fields_witness :
  exists self m,
    new pads_x4 "gen2" 64 MB "sys" None = inr (self, m) /\
    read (tick "pcie" m
            (<["function_number" := 5]> (<["device_number" := 3]>
             (<["bus_number" := 1]> (<["pcie_rst" := 0]> ∅))))) (id self) = 285.
Proof.
  destruct example_phy as [[self m] E]. exists self, m. split; [exact E|].
  destruct (identity_tag_fields _ _ _ _ _ _ _ _ E) as (_ & Htag & _).
  pose proof (Htag (<["function_number" := 5]> (<["device_number" := 3]>
                (<["bus_number" := 1]> (<["pcie_rst" := 0]> ∅))))) as Hv.
  exact (proj1 (Hv eq_refl)).
Defined.

(** With bus mastering enabled alone (bit 2 of the function-status word, as in
    the PCI command register), the bus-master status reads 0; with I/O space
    enabled alone (bit 0) it reads 1. *)
Lemma bus_master_enable_status_witness :
  exists self m,
    new pads_x4 "gen2" 64 MB "sys" None = inr (self, m) /\
    read (settle m (tick "sys" m (tick "sys" m (<["cfg_function_status" := 4]> ∅))))
         (status (_bus_master_enable self)) = 0 /\
    read (settle m (tick "sys" m (tick "sys" m (<["cfg_function_status" := 1]> ∅))))
         (status (_bus_master_enable self)) = 1.
Proof.
  destruct example_phy as [[self m] E]. exists self, m. split; [exact E|].
  destruct (bus_master_enable_status _ _ _ _ _ _ _ _ E) as (_ & _ & _ & _ & _ & Hbit).
  split.
  - exact (Hbit (<["cfg_function_status" := 4]> ∅)).
  - exact (Hbit (<["cfg_function_status" := 1]> ∅)).
Defined.

(** The four datapaths of the default profile, all 64 bits wide. *)
Lemma four_datapaths_witness :
  exists self m,
    new pads_x4 "gen2" 64 MB "sys" None = inr (self, m) /\
    List.filter (fun q => is_datapath (inst q)) (submodules m)
    = [cc_datapath self; rq_datapath self; cq_datapath self; rc_datapath self] /\
    inst (rq_datapath self) = PHYTXDatapath 64 64 "sys" /\
    inst (cq_datapath self) = PHYRXDatapath 64 64 "sys".
Proof.
  destruct example_phy as [[self m] E]. exists self, m. split; [exact E|].
  destruct (four_datapaths _ _ _ _ _ _ _ _ E) as (Hfour & (Hrq & _ & Hcq & _) & _).
  auto.
Defined.

(** The default profile gives no PCIe width: it is the 64 bits of the
    application, and the four datapaths are built from 64 to 64 bits. *)
Lemma pcie_data_width_default_witness :
  exists self m,
    new pads_x4 "gen2" 64 MB "sys" None = inr (self, m) /\
    data_width self = 64 /\ pcie_data_width self = data_width self /\
    map inst (List.filter (fun q => is_datapath (inst q)) (submodules m))
    = [ PHYTXDatapath 64 64 "sys"; PHYTXDatapath 64 64 "sys";
        PHYRXDatapath 64 64 "sys"; PHYRXDatapath 64 64 "sys" ].
Proof.
  destruct example_phy as [[self m] E]. exists self, m. split; [exact E|].
  destruct (pcie_data_width_default _ _ _ _ _ _ _ E)
    as (Hdw & Hpw & (Hfour & Hinst & _) & _).
  rewrite Hfour. auto.
Defined.

(** Bit 14 of the completer-request tuser raises [first]; tlast of the
    requester completion raises [last]. *)
Lemma ingress_first_last_witness :
  exists self m,
    new pads_x4 "gen2" 64 MB "sys" None = inr (self, m) /\
    read (settle m (<["m_axis_cq_tuser" := 16384]> ∅)) (first (m_axis_cq self)) = 1 /\
    read (settle m (<["m_axis_rc_tlast" := 1]> ∅)) (last (m_axis_rc self)) = 1.
Proof.
  destruct example_phy as [[self m] E]. exists self, m. split; [exact E|].
  destruct (ingress_first_last _ _ _ _ _ _ _ _ E) as (_ & _ & _ & Hsim).
  split.
  - exact (proj1 (Hsim (<["m_axis_cq_tuser" := 16384]> ∅))).
  - exact (proj2 (proj2 (proj2 (Hsim (<["m_axis_rc_tlast" := 1]> ∅))))).
Defined.

(** * Further properties *)

(** ** Size codes *)

(** A code outside 0..5 has no branch. *)
Lemma convert_size_no_branch command size max_size c :
  ~ 0 <= c <= 5 -> case_const (convert_size command size max_size) c = None.
Proof.
  intros Hc. rewrite convert_size_unfold. cbv zeta. cbn [case_const].
  rewrite !lookup_insert_ne by lia. rewrite lookup_empty. reflexivity.
Qed.

(** X2. For a ceiling that is not negative, code 0 gives 128 whatever the
    ceiling, and code c in 1..5 gives min(128 * 2^c, ceiling). *)
Theorem convert_size_closed_form command size max_size c :
  0 <= max_size -> 0 <= c <= 5 ->
  case_const (convert_size command size max_size) c
  = Some (if c =? 0 then 128 else Z.min (128 * 2 ^ c) max_size).
Proof.
  intros HM Hc. rewrite convert_size_unfold. cbv zeta. cbn [case_const].
  destruct (code_cases c Hc) as [->|[->|[->|[->|[->| ->]]]]].
  all: rewrite ?lookup_insert_eq, ?lookup_insert_ne by lia.
  all: try rewrite lookup_insert_eq.
  all: cbn [fmap option_fmap option_map rhs Constant Z.eqb].
  all: f_equal; lia.
Qed.

Lemma convert_size_closed_form_witness :
  case_const (convert_size cfg_max_read_req (mkSignal "max_request_size" 16) 1000) 3
  = Some 1000.
Proof.
  apply (convert_size_closed_form cfg_max_read_req
           (mkSignal "max_request_size" 16) 1000 3); lia.
Defined.

(** X3. With a ceiling of at least 128 the sizes never decrease with the code
    and stay between 128 and the ceiling. *)
Theorem convert_size_monotone command size max_size c c' v v' :
  128 <= max_size -> 0 <= c <= c' -> c' <= 5 ->
  case_const (convert_size command size max_size) c = Some v ->
  case_const (convert_size command size max_size) c' = Some v' ->
  128 <= v /\ v <= v' /\ v' <= max_size.
Proof.
  intros HM Hc Hc'.
  rewrite !convert_size_closed_form by lia.
  intros [= <-] [= <-].
  assert (Hpow : 2 ^ c <= 2 ^ c') by (apply Z.pow_le_mono_r; lia).
  assert (Hone : 1 <= 2 ^ c) by (apply (Z.pow_le_mono_r 2 0 c); lia).
  assert (Hone' : 1 <= 2 ^ c') by (apply (Z.pow_le_mono_r 2 0 c'); lia).
  destruct (Z.eqb_spec c 0), (Z.eqb_spec c' 0); lia.
Qed.

Lemma convert_size_monotone_witness :
  128 <= 256 /\ 256 <= 300 /\ 300 <= 300.
Proof.
  apply (convert_size_monotone cfg_max_read_req
           (mkSignal "max_request_size" 16) 300 1 4 256 300);
    first [lia | reflexivity].
Defined.

(** ** Clock edges *)

(** A block leaves alone the signals none of its statements assigns. *)
Lemma write_of_not_target σ st x :
  x ∉ targets st -> write_of σ st x = None.
Proof.
  intros Hx.
  assert (Ha : forall a : assign, sig_name (lhs a) <> x ->
    (if String.eqb (sig_name (lhs a)) x
     then Some (trunc (nbits (lhs a)) (eval σ (rhs a))) else None) = None).
  { intros a Hne. destruct (String.eqb_spec (sig_name (lhs a)) x); congruence. }
  destruct st as [a|test cases]; cbn [write_of targets] in *.
  - apply Ha. intros <-. apply Hx. apply list_elem_of_singleton. reflexivity.
  - destruct (cases !! eval σ test) as [a|] eqn:E; [|reflexivity].
    apply Ha. intros <-. apply Hx.
    apply elem_of_remove_dups, list_elem_of_In, in_map_iff.
    exists (eval σ test, a). split; [reflexivity|].
    apply list_elem_of_In, elem_of_map_to_list. exact E.
Qed.

Lemma exec_block_frame stmts σ x :
  x ∉ flat_map targets stmts -> exec_block stmts σ !! x = σ !! x.
Proof.
  rewrite exec_block_lookup. generalize (σ !! x) as r.
  induction stmts as [|st stmts IH]; intros r Hx; [reflexivity|].
  cbn [flat_map fold_left] in *.
  rewrite elem_of_app in Hx.
  rewrite write_of_not_target by tauto. apply IH. tauto.
Qed.

(** The block of the pcie domain: the two size registers and the tag. *)
Lemma pcie_block pads speed dw b0 cd pdw self m :
  new pads speed dw b0 cd pdw = inr (self, m) ->
  let rs := mkSignal "max_request_size" 16 in
  let ps := mkSignal "max_payload_size" 16 in
  (max_request_size self = rs /\ max_payload_size self = ps /\
   id self = mkSignal "id" 16) /\
  sync_of "pcie" m
  = [ convert_size cfg_max_read_req rs 512;
      convert_size cfg_max_payload_size ps 512;
      eq_ (mkSignal "id" 16)
        (ECat [ESig function_number; ESig device_number; ESig bus_number]) ].
Proof.
  intros H. new_inv H. all: split; [repeat split|]; reflexivity.
Qed.

(** The reset statements of the pcie domain: one for each of the three
    registers. *)
Lemma pcie_resetcode pads speed dw b0 cd pdw self m :
  new pads speed dw b0 cd pdw = inr (self, m) ->
  resetcode "pcie" m
  = [ eq_ (mkSignal "max_request_size" 16) (Constant 0);
      eq_ (mkSignal "max_payload_size" 16) (Constant 0);
      eq_ (mkSignal "id" 16) (Constant 0) ].
Proof.
  intros H. new_inv H; vm_compute; reflexivity.
Qed.

(** An edge of the pcie domain with the reset of the domain asserted clears
    the tag and the two size registers. *)
Lemma tick_pcie_reset pads speed dw b0 cd pdw self m σ :
  new pads speed dw b0 cd pdw = inr (self, m) ->
  read σ (ResetSignal "pcie") <> 0 ->
  read (tick "pcie" m σ) (id self) = 0 /\
  read (tick "pcie" m σ) (max_request_size self) = 0 /\
  read (tick "pcie" m σ) (max_payload_size self) = 0.
Proof.
  intros H Hrst.
  destruct (pcie_block _ _ _ _ _ _ _ _ H) as ((-> & -> & ->) & _).
  unfold tick. destruct (Z.eqb_spec (read σ (ResetSignal "pcie")) 0) as [E|_];
    [contradiction|].
  rewrite (pcie_resetcode _ _ _ _ _ _ _ _ H), !read_exec_block, !fold_left_app.
  repeat split.
  all: match goal with
       | |- context [fold_left ?f (sync_of ?d ?n) ?r] =>
           generalize (fold_left f (sync_of d n) r)
       end.
  all: intros r; reflexivity.
Qed.

(** A size register after a clock edge of the pcie domain, the reset of the
    domain deasserted: the constant of the branch of the code, its previous
    value when the code has no branch. *)
Lemma tick_pcie_sizes pads speed dw b0 cd pdw self m σ :
  new pads speed dw b0 cd pdw = inr (self, m) ->
  read σ (ResetSignal "pcie") = 0 ->
  let after (command size : Signal) :=
    match case_const (convert_size command size 512) (read σ command) with
    | Some v => v
    | None => read σ size
    end in
  read (tick "pcie" m σ) (max_request_size self)
  = after cfg_max_read_req (max_request_size self) /\
  read (tick "pcie" m σ) (max_payload_size self)
  = after cfg_max_payload_size (max_payload_size self).
Proof.
  intros H Hrst after. subst after.
  destruct (pcie_block _ _ _ _ _ _ _ _ H) as ((-> & -> & _) & Hblock).
  rewrite (tick_run _ _ _ Hrst), Hblock, !read_exec_block.
  cbn [fold_left sig_name nbits].
  split.
  - rewrite (write_of_convert_size cfg_max_read_req _ 512 σ _ _ eq_refl).
    rewrite (write_of_convert_size_ne cfg_max_payload_size) by discriminate.
    cbn [write_of eq_ lhs sig_name String.eqb Ascii.eqb Bool.eqb].
    pose proof (read_range σ cfg_max_read_req ltac:(cbn; lia)) as Hr.
    destruct (Z_le_gt_dec (read σ cfg_max_read_req) 5) as [Hc|Hc].
    + rewrite convert_size_512 by lia.
      destruct (size_table !! _) as [v|] eqn:Ev.
      * cbn. rewrite trunc_trunc. apply (size_table_fits _ _ Ev).
      * reflexivity.
    + rewrite convert_size_no_branch by lia. reflexivity.
  - rewrite (write_of_convert_size cfg_max_payload_size _ 512 σ _ _ eq_refl).
    rewrite (write_of_convert_size_ne cfg_max_read_req) by discriminate.
    cbn [write_of eq_ lhs sig_name String.eqb Ascii.eqb Bool.eqb].
    pose proof (read_range σ cfg_max_payload_size ltac:(cbn; lia)) as Hr.
    destruct (Z_le_gt_dec (read σ cfg_max_payload_size) 5) as [Hc|Hc].
    + rewrite convert_size_512 by lia.
      destruct (size_table !! _) as [v|] eqn:Ev.
      * cbn. rewrite trunc_trunc. apply (size_table_fits _ _ Ev).
      * reflexivity.
    + rewrite convert_size_no_branch by lia. reflexivity.
Qed.

(** X1. A size code of 6 or 7 has no branch in [convert_size]: a clock edge
    of the pcie domain with the reset of the domain deasserted then leaves
    the size register as it was.  With the reset asserted, the edge clears
    the tag and the two size registers, whatever the code. *)
Theorem size_registers_hold pads speed dw b0 cd pdw self m :
  new pads speed dw b0 cd pdw = inr (self, m) ->
  forall σ,
    (read σ (ResetSignal "pcie") = 0 ->
     (5 < read σ cfg_max_read_req ->
      read (tick "pcie" m σ) (max_request_size self)
      = read σ (max_request_size self)) /\
     (5 < read σ cfg_max_payload_size ->
      read (tick "pcie" m σ) (max_payload_size self)
      = read σ (max_payload_size self))) /\
    (read σ (ResetSignal "pcie") <> 0 ->
     read (tick "pcie" m σ) (id self) = 0 /\
     read (tick "pcie" m σ) (max_request_size self) = 0 /\
     read (tick "pcie" m σ) (max_payload_size self) = 0).
Proof.
  intros H σ. split; intros Hrst.
  - destruct (tick_pcie_sizes _ _ _ _ _ _ _ _ σ H Hrst) as [-> ->].
    split; intros Hc; rewrite convert_size_no_branch by lia; reflexivity.
  - exact (tick_pcie_reset _ _ _ _ _ _ _ _ σ H Hrst).
Qed.

Lemma size_registers_hold_witness :
  exists self m,
    new pads_x4 "gen2" 64 MB "sys" None = inr (self, m) /\
    read (tick "pcie" m (<["cfg_max_read_req" := 6]>
                           (<["max_request_size" := 256]>
                            (<["pcie_rst" := 0]> ∅))))
         (max_request_size self) = 256 /\
    read (tick "pcie" m (<["cfg_max_read_req" := 6]>
                           (<["max_request_size" := 256]>
                            (<["pcie_rst" := 1]> ∅))))
         (max_request_size self) = 0.
Proof.
  destruct example_phy as [[self m] E]. exists self, m. split; [exact E|].
  destruct (pcie_block _ _ _ _ _ _ _ _ E) as ((Hrs & _) & _).
  split.
  - destruct (size_registers_hold _ _ _ _ _ _ _ _ E
                (<["cfg_max_read_req" := 6]> (<["max_request_size" := 256]>
                 (<["pcie_rst" := 0]> ∅))))
      as [Hrun _].
    destruct (Hrun eq_refl) as [Hhold _].
    rewrite Hhold by reflexivity.
    rewrite Hrs. reflexivity.
  - destruct (size_registers_hold _ _ _ _ _ _ _ _ E
                (<["cfg_max_read_req" := 6]> (<["max_request_size" := 256]>
                 (<["pcie_rst" := 1]> ∅))))
      as [_ Hreset].
    assert (Hrst : read (<["cfg_max_read_req" := 6]> (<["max_request_size" := 256]>
                           (<["pcie_rst" := 1]> ∅))) (ResetSignal "pcie") <> 0)
      by (vm_compute; discriminate).
    destruct (Hreset Hrst) as (_ & Hclear & _).
    exact Hclear.
Defined.

(** An edge of the pcie domain changes no signal but the tag and the two
    size registers. *)
Lemma tick_pcie_frame pads speed dw b0 cd pdw self m σ x :
  new pads speed dw b0 cd pdw = inr (self, m) ->
  x <> "id" -> x <> "max_request_size" -> x <> "max_payload_size" ->
  tick "pcie" m σ !! x = σ !! x.
Proof.
  intros H Hid' Hrs' Hps'.
  destruct (pcie_block _ _ _ _ _ _ _ _ H) as (_ & Hblock).
  unfold tick. rewrite Hblock, (pcie_resetcode _ _ _ _ _ _ _ _ H).
  apply exec_block_frame.
  rewrite flat_map_app, elem_of_app.
  intros [Hx|Hx].
  2: { destruct (_ =? _); cbn [flat_map targets app eq_ lhs sig_name] in Hx.
       - apply elem_of_nil in Hx. exact Hx.
       - repeat (apply elem_of_cons in Hx as [->|Hx]; [congruence|]).
         apply elem_of_nil in Hx. exact Hx. }
  revert Hx.
  cbn [flat_map]. rewrite !elem_of_app.
  assert (Hcs : forall command size,
    x <> sig_name size -> x ∉ targets (convert_size command size 512)).
  { intros command size Hne. rewrite convert_size_unfold. cbv zeta.
    cbn [targets]. rewrite elem_of_remove_dups, list_elem_of_In, in_map_iff.
    intros ([k a] & <- & Hka). apply list_elem_of_In, elem_of_map_to_list in Hka.
    cbn [snd] in Hne.
    repeat (apply lookup_insert_Some in Hka as [[_ <-]|[_ Hka]];
            [apply Hne; reflexivity|]).
    rewrite lookup_empty in Hka. discriminate. }
  intros [Hx|[Hx|[Hx|Hx]]].
  - revert Hx. apply Hcs. exact Hrs'.
  - revert Hx. apply Hcs. exact Hps'.
  - apply list_elem_of_singleton in Hx. contradiction.
  - apply elem_of_nil in Hx. exact Hx.
Qed.

(** The statements of the sys domain are those of the registers of the
    specials. *)
Lemma sys_block_specials pads speed dw b0 cd pdw self m :
  new pads speed dw b0 cd pdw = inr (self, m) ->
  sync_of "sys" m = flat_map special_regs (specials m).
Proof. intros H. new_inv H; reflexivity. Qed.

(** X4. The clock edges keep to their registers: an edge of the pcie domain
    changes no signal but the tag and the two size registers; an edge of the
    sys domain changes no signal but the registers of the status
    synchronisers, so it changes neither the tag nor the size registers nor
    what the hard IP drives. *)
Theorem clock_edges_frame pads speed dw b0 cd pdw self m :
  new pads speed dw b0 cd pdw = inr (self, m) ->
  (forall σ x,
     x <> "id" -> x <> "max_request_size" -> x <> "max_payload_size" ->
     tick "pcie" m σ !! x = σ !! x) /\
  (forall σ x,
     x ∉ flat_map targets (flat_map special_regs (specials m)) ->
     tick "sys" m σ !! x = σ !! x) /\
  (forall σ s,
     s ∈ [ id self; max_request_size self; max_payload_size self;
           link_up; msi_enable; cfg_function_status;
           cfg_max_read_req; cfg_max_payload_size;
           function_number; device_number; bus_number ] ->
     read (tick "sys" m σ) s = read σ s).
Proof.
  intros H.
  destruct (pcie_block _ _ _ _ _ _ _ _ H) as ((Hrs & Hps & Hid) & _).
  destruct (status_synchronisers _ _ _ _ _ _ _ _ H) as (_ & Hsys & _).
  split; [|split].
  - intros σ x. apply (tick_pcie_frame _ _ _ _ _ _ _ _ σ x H).
  - intros σ x Hx. rewrite (tick_sys _ _ _ _ _ _ _ _ σ H).
    apply exec_block_frame.
    rewrite (sys_block_specials _ _ _ _ _ _ _ _ H). exact Hx.
  - intros σ s Hs. unfold read. f_equal. f_equal.
    rewrite (tick_sys _ _ _ _ _ _ _ _ σ H). apply exec_block_frame.
    rewrite Hrs, Hps, Hid, Hsys in *. clear -Hs.
    repeat (apply elem_of_cons in Hs as [->|Hs];
            [apply (bool_decide_unpack _); vm_compute; exact I|]).
    apply elem_of_nil in Hs. contradiction.
Qed.

Lemma clock_edges_frame_witness :
  exists self m,
    new pads_x4 "gen2" 64 MB "sys" None = inr (self, m) /\
    tick "pcie" m (<["link_up" := 1]> ∅) !! "link_up" = Some 1 /\
    read (tick "sys" m (<["id" := 285]> ∅)) (id self) = 285.
Proof.
  destruct example_phy as [[self m] E]. exists self, m. split; [exact E|].
  destruct (clock_edges_frame _ _ _ _ _ _ _ _ E) as (Hpcie & _ & Hsys).
  destruct (pcie_block _ _ _ _ _ _ _ _ E) as ((_ & _ & Hid) & _).
  split.
  - rewrite Hpcie by discriminate. reflexivity.
  - rewrite Hsys.
    + rewrite Hid. reflexivity.
    + apply elem_of_cons. left. reflexivity.
Defined.

(** X5. A second clock edge of the pcie domain, with the outputs of the hard
    IP unchanged, changes nothing: the tag and the size registers are
    functions of what the hard IP drives. *)
Theorem tick_pcie_idempotent pads speed dw b0 cd pdw self m :
  new pads speed dw b0 cd pdw = inr (self, m) ->
  forall σ, tick "pcie" m (tick "pcie" m σ) = tick "pcie" m σ.
Proof.
  intros H σ.
  destruct (pcie_block _ _ _ _ _ _ _ _ H) as (_ & Hblock).
  pose proof (pcie_resetcode _ _ _ _ _ _ _ _ H) as Hreset.
  (* the edge changes neither what the hard IP drives nor the reset *)
  assert (Hin : forall s,
    s ∈ [cfg_max_read_req; cfg_max_payload_size;
         function_number; device_number; bus_number; ResetSignal "pcie"] ->
    read (tick "pcie" m σ) s = read σ s).
  { intros s Hs. unfold read. f_equal. f_equal.
    apply (tick_pcie_frame _ _ _ _ _ _ _ _ σ _ H);
      repeat (apply elem_of_cons in Hs as [->|Hs]; [discriminate|]);
      apply elem_of_nil in Hs; contradiction. }
  apply map_eq. intros x. unfold tick at 1.
  rewrite (Hin (ResetSignal "pcie")) by (rewrite !elem_of_cons; tauto).
  rewrite exec_block_lookup.
  (* so the second edge runs the same statements, which write the same *)
  etransitivity.
  { apply (last_writer_ext (fun st => write_of (tick "pcie" m σ) st x)
                           (fun st => write_of σ st x)).
    intros st Hst. rewrite Hblock, Hreset in Hst.
    apply elem_of_app in Hst as [Hst|Hst].
    - repeat (apply elem_of_cons in Hst as [->|Hst]).
      + rewrite !(write_of_convert_size _ _ _ _ _ _ eq_refl).
        rewrite Hin by (rewrite !elem_of_cons; tauto). reflexivity.
      + rewrite !(write_of_convert_size _ _ _ _ _ _ eq_refl).
        rewrite Hin by (rewrite !elem_of_cons; tauto). reflexivity.
      + cbn [write_of eq_ lhs rhs eval fold_right width].
        rewrite !Hin by (rewrite !elem_of_cons; tauto). reflexivity.
      + apply elem_of_nil in Hst. contradiction.
    - destruct (_ =? _).
      + apply elem_of_nil in Hst. contradiction.
      + repeat (apply elem_of_cons in Hst as [->|Hst]; [reflexivity|]).
        apply elem_of_nil in Hst. contradiction. }
  unfold tick. rewrite exec_block_lookup.
  exact (last_writer_idem (fun st => write_of σ st x) _ _).
Qed.

Lemma tick_pcie_idempotent_witness :
  exists self m,
    new pads_x4 "gen2" 64 MB "sys" None = inr (self, m) /\
    let σ := <["cfg_max_read_req" := 1]> (<["bus_number" := 3]> ∅) in
    tick "pcie" m (tick "pcie" m σ) = tick "pcie" m σ.
Proof.
  destruct example_phy as [[self m] E]. exists self, m. split; [exact E|].
  intros σ. exact (tick_pcie_idempotent _ _ _ _ _ _ _ _ E σ).
Defined.

(** ** From the hard IP to the status registers *)

(** X6. A size code in 0..5 reported by the hard IP reaches the CSR: after
    one clock edge of the pcie domain, the reset of the domain deasserted,
    and two of the sys domain the max request size and max payload size
    status registers hold the table entry of their code. *)
Theorem negotiated_size_reaches_csr pads speed dw b0 cd pdw self m :
  new pads speed dw b0 cd pdw = inr (self, m) ->
  forall σ, read σ (ResetSignal "pcie") = 0 ->
    let σ' := settle m (tick "sys" m (tick "sys" m (tick "pcie" m σ))) in
    (read σ cfg_max_read_req <= 5 ->
     Some (read σ' (status (_max_request_size self)))
     = size_table !! Z.to_nat (read σ cfg_max_read_req)) /\
    (read σ cfg_max_payload_size <= 5 ->
     Some (read σ' (status (_max_payload_size self)))
     = size_table !! Z.to_nat (read σ cfg_max_payload_size)).
Proof.
  intros H σ Hrst σ'. subst σ'.
  destruct (status_relays _ _ _ _ _ _ _ _ (tick "pcie" m σ) H)
    as (_ & _ & -> & ->).
  destruct (tick_pcie_sizes _ _ _ _ _ _ _ _ σ H Hrst) as [-> ->].
  pose proof (read_range σ cfg_max_read_req ltac:(cbn; lia)) as Hr.
  pose proof (read_range σ cfg_max_payload_size ltac:(cbn; lia)) as Hp.
  split; intros Hc; rewrite convert_size_512 by lia.
  - destruct (size_table !! _) eqn:Ev; [reflexivity|].
    destruct (code_cases (read σ cfg_max_read_req) ltac:(lia))
      as [E|[E|[E|[E|[E|E]]]]]; rewrite E in Ev; discriminate Ev.
  - destruct (size_table !! _) eqn:Ev; [reflexivity|].
    destruct (code_cases (read σ cfg_max_payload_size) ltac:(lia))
      as [E|[E|[E|[E|[E|E]]]]]; rewrite E in Ev; discriminate Ev.
Qed.

Lemma negotiated_size_reaches_csr_witness :
  exists self m,
    new pads_x4 "gen2" 64 MB "sys" None = inr (self, m) /\
    read (settle m (tick "sys" m (tick "sys" m
            (tick "pcie" m (<["cfg_max_payload_size" := 1]>
                              (<["pcie_rst" := 0]> ∅))))))
         (status (_max_payload_size self)) = 256.
Proof.
  destruct example_phy as [[self m] E]. exists self, m. split; [exact E|].
  pose proof (negotiated_size_reaches_csr _ _ _ _ _ _ _ _ E
                (<["cfg_max_payload_size" := 1]> (<["pcie_rst" := 0]> ∅))) as Hcsr.
  destruct (Hcsr eq_refl) as [_ Hp].
  specialize (Hp ltac:(vm_compute; discriminate)).
  injection Hp as Hp. exact Hp.
Defined.

(** X7. One clock edge of the sys domain is not enough: after it a status
    register shows what the first stage of its synchroniser held before the
    edge, whatever its source signal is now. *)
Theorem status_after_one_edge pads speed dw b0 cd pdw self m :
  new pads speed dw b0 cd pdw = inr (self, m) ->
  forall σ,
    let σ' := settle m (tick "sys" m σ) in
    let stage0 i (c : CSRStatus) := multireg_reg (ESig i) (status c) 0 in
    read σ' (status (_link_up self))
    = read σ (stage0 link_up (_link_up self)) /\
    read σ' (status (_msi_enable self))
    = read σ (stage0 msi_enable (_msi_enable self)) /\
    read σ' (status (_max_request_size self))
    = read σ (stage0 (max_request_size self) (_max_request_size self)) /\
    read σ' (status (_max_payload_size self))
    = read σ (stage0 (max_payload_size self) (_max_payload_size self)) /\
    read σ' (status (_bus_master_enable self))
    = Z.b2z (Z.testbit
               (read σ (stage0 cfg_function_status (_bus_master_enable self))) 0).
Proof.
  intros H σ σ' stage0. subst σ' stage0.
  destruct (status_synchronisers _ _ _ _ _ _ _ _ H)
    as ((-> & -> & -> & -> & -> & -> & ->) & Hsys & Hsettle).
  destruct (Hsettle (tick "sys" m σ)) as (-> & -> & -> & -> & ->).
  rewrite (tick_sys _ _ _ _ _ _ _ _ σ H), Hsys. clear.
  repeat split.
  all: rewrite read_exec_block; lazy -[read trunc Z.testbit Z.b2z exec_block].
  all: rewrite ?trunc_trunc.
  - apply (trunc_read_at σ (mkSignal "_link_up_status_multireg0" 1) 1 eq_refl).
  - apply (trunc_read_at σ (mkSignal "_msi_enable_status_multireg0" 1) 1 eq_refl).
  - apply (trunc_read_at σ (mkSignal "_max_request_size_status_multireg0" 16) 16 eq_refl).
  - apply (trunc_read_at σ (mkSignal "_max_payload_size_status_multireg0" 16) 16 eq_refl).
  - rewrite (trunc_read_at σ (mkSignal "_bus_master_enable_status_multireg0" 16) 16 eq_refl).
    apply trunc_1.
Qed.

Lemma status_after_one_edge_witness :
  exists self m,
    new pads_x4 "gen2" 64 MB "sys" None = inr (self, m) /\
    read (settle m (tick "sys" m (<["link_up" := 1]> ∅)))
         (status (_link_up self)) = 0.
Proof.
  destruct example_phy as [[self m] E]. exists self, m. split; [exact E|].
  destruct (status_after_one_edge _ _ _ _ _ _ _ _ E (<["link_up" := 1]> ∅))
    as (Hl & _).
  destruct (status_synchronisers _ _ _ _ _ _ _ _ E) as ((Hs & _) & _).
  rewrite Hl, Hs. reflexivity.
Defined.

(** ** The tag as a code *)

(** X8. After a clock edge of the pcie domain with the reset of the domain
    deasserted, the sub-fields are read back from the tag: the function
    number is the tag modulo 8, the device number the next five bits, the bus
    number the tag divided by 256; so two settings of the sub-fields give the
    same tag only if they are the same setting. *)
Theorem identity_tag_decodes pads speed dw b0 cd pdw self m :
  new pads speed dw b0 cd pdw = inr (self, m) ->
  (forall σ, read σ (ResetSignal "pcie") = 0 ->
     let tag := read (tick "pcie" m σ) (id self) in
     tag mod 8 = read σ function_number /\
     (tag / 8) mod 32 = read σ device_number /\
     tag / 256 = read σ bus_number) /\
  (forall σ1 σ2,
     read σ1 (ResetSignal "pcie") = 0 -> read σ2 (ResetSignal "pcie") = 0 ->
     read (tick "pcie" m σ1) (id self) = read (tick "pcie" m σ2) (id self) ->
     read σ1 function_number = read σ2 function_number /\
     read σ1 device_number = read σ2 device_number /\
     read σ1 bus_number = read σ2 bus_number).
Proof.
  intros H.
  assert (Hdec : forall σ, read σ (ResetSignal "pcie") = 0 ->
     let tag := read (tick "pcie" m σ) (id self) in
     tag mod 8 = read σ function_number /\
     (tag / 8) mod 32 = read σ device_number /\
     tag / 256 = read σ bus_number).
  { intros σ Hrst tag. subst tag.
    destruct (tick_pcie_id _ _ _ _ _ _ _ _ σ H Hrst) as [_ ->].
    pose proof (read_range σ function_number ltac:(cbn; lia)) as Hf.
    pose proof (read_range σ device_number ltac:(cbn; lia)) as Hd.
    pose proof (read_range σ bus_number ltac:(cbn; lia)) as Hb.
    unfold read, function_number, device_number, bus_number in *.
    cbn [nbits sig_name] in *.
    rewrite cat3_value.
    change (2 ^ 3) with 8 in Hf. change (2 ^ 5) with 32 in Hd.
    change (2 ^ 8) with 256 in Hb.
    set (f := trunc 3 _) in *. set (d := trunc 5 _) in *.
    set (b := trunc 8 _) in *. clearbody f d b.
    repeat split; Z.to_euclidean_division_equations; lia. }
  split; [exact Hdec|].
  intros σ1 σ2 Hrst1 Hrst2 Heq.
  destruct (Hdec σ1 Hrst1) as (F1 & D1 & B1).
  destruct (Hdec σ2 Hrst2) as (F2 & D2 & B2).
  rewrite <- F1, <- D1, <- B1, <- F2, <- D2, <- B2, Heq. auto.
Qed.

Lemma identity_tag_decodes_witness :
  exists self m,
    new pads_x4 "gen2" 64 MB "sys" None = inr (self, m) /\
    let tag := read (tick "pcie" m
                 (<["function_number" := 5]> (<["device_number" := 3]>
                  (<["bus_number" := 1]> (<["pcie_rst" := 0]> ∅))))) (id self) in
    tag mod 8 = 5 /\ (tag / 8) mod 32 = 3 /\ tag / 256 = 1.
Proof.
  destruct example_phy as [[self m] E]. exists self, m. split; [exact E|].
  destruct (identity_tag_decodes _ _ _ _ _ _ _ _ E) as [Hdec _].
  pose proof (Hdec (<["function_number" := 5]> (<["device_number" := 3]>
                (<["bus_number" := 1]> (<["pcie_rst" := 0]> ∅))))) as Hd.
  exact (Hd eq_refl).
Defined.

(** ** The netlist *)

(** X9. No signal has two drivers: in the finalized netlist the signals the
    statements assign and the signals the instance outputs drive (the serial
    pins apart, which are pads) are all different. *)
Theorem single_driver pads speed dw b0 cd pdw self m m' :
  new pads speed dw b0 cd pdw = inr (self, m) ->
  USPPCIEPHY.do_finalize self m = inr (tt, m') ->
  NoDup (drivers ["o_pci_exp_txp"; "o_pci_exp_txn"] m').
Proof.
  intros H. new_inv H.
  all: cbn [USPPCIEPHY.do_finalize add_specials pcie_phy_params].
  all: intros [= <-].
  all: apply (bool_decide_unpack _); vm_compute; exact I.
Qed.



(** X11. Framing and back-pressure of the four streams: first, last and the
    byte enables go the way of the data, from the application sinks into the
    egress datapaths and from the ingress datapaths to the application
    sources; ready goes the other way. *)
Theorem stream_framing_and_backpressure pads speed dw b0 cd pdw self m :
  new pads speed dw b0 cd pdw = inr (self, m) ->
  forall σ,
    let σ' := settle m σ in
    let forwards (src dst : Endpoint) :=
      read σ' (first dst) = read σ (first src) /\
      read σ' (last dst) = read σ (last src) /\
      read σ' (be dst) = read σ (be src) /\
      read σ' (ready src) = read σ (ready dst) in
    forwards (req_sink self) (sink (rq_datapath self)) /\
    forwards (cmp_sink self) (sink (cc_datapath self)) /\
    forwards (source (cq_datapath self)) (req_source self) /\
    forwards (source (rc_datapath self)) (cmp_source self).
Proof.
  intros H. new_inv H.
  all: cbn [rq_datapath cc_datapath cq_datapath rc_datapath
            req_sink cmp_sink req_source cmp_source].
  all: intros σ; settle_eval.
  all: repeat split; apply trunc_read.
Qed.

Lemma stream_framing_and_backpressure_witness :
  exists self m,
    new pads_x4 "gen2" 64 MB "sys" None = inr (self, m) /\
    read (settle m (<["rq_datapath_sink_ready" := 1]> ∅)) (ready (req_sink self)) = 1 /\
    read (settle m (<["cq_datapath_source_last" := 1]> ∅)) (last (req_source self)) = 1.
Proof.
  exists (fst (proj1_sig example_phy)), (snd (proj1_sig example_phy)).
  assert (E : new pads_x4 "gen2" 64 MB "sys" None
              = inr (fst (proj1_sig example_phy), snd (proj1_sig example_phy))).
  { rewrite <- surjective_pairing. exact (proj2_sig example_phy). }
  split; [exact E|]. split.
  - destruct (stream_framing_and_backpressure _ _ _ _ _ _ _ _ E
                (<["rq_datapath_sink_ready" := 1]> ∅)) as ((_ & _ & _ & Hr) & _).
    rewrite Hr. reflexivity.
  - destruct (stream_framing_and_backpressure _ _ _ _ _ _ _ _ E
                (<["cq_datapath_source_last" := 1]> ∅)) as (_ & _ & (_ & Hl & _) & _).
    rewrite Hl. reflexivity.
Defined.

Lemma single_driver_witness :
  exists self m m',
    new pads_x4 "gen2" 64 MB "sys" None = inr (self, m) /\
    USPPCIEPHY.do_finalize self m = inr (tt, m') /\
    NoDup (drivers ["o_pci_exp_txp"; "o_pci_exp_txn"] m').
Proof.
  destruct example_phy as [[self m] E].
  destruct (USPPCIEPHY.do_finalize self m) as [e|[[] m']] eqn:F.
  { destruct m; discriminate F. }
  exists self, m, m'. split; [exact E|]. split; [exact F|].
  exact (single_driver _ _ _ _ _ _ _ _ _ E F).
Defined.

(** ** Source files *)

Import Sources.

Lemma endswith_sep_app a b :
  b <> "" -> endswith_sep (a +:+ b) = endswith_sep b.
Proof.
  intros Hb. induction a as [|c a IH]; [reflexivity|].
  change (String c a +:+ b) with (String c (a +:+ b)).
  cbn [endswith_sep]. rewrite IH.
  destruct (a +:+ b) eqn:E; [|reflexivity].
  destruct a; [|discriminate E]. cbn in E. contradiction.
Qed.

(** The directory of the bundled IP does not start or end with a separator. *)
Lemma phy_path_shape cls speed nlanes :
  speed ∈ ["gen2"; "gen3"; "gen4"] -> nlanes ∈ [1; 2; 4; 8; 16] ->
  let p := phy_path cls speed nlanes in
  p <> "" /\ startswith_sep p = false /\ endswith_sep p = false.
Proof.
  intros Hs Hn.
  repeat (apply elem_of_cons in Hs as [->|Hs]);
    try (apply elem_of_nil in Hs; contradiction).
  all: repeat (apply elem_of_cons in Hn as [->|Hn]);
    try (apply elem_of_nil in Hn; contradiction).
  all: destruct cls; vm_compute; repeat split; discriminate.
Qed.

(** X12. Without an external hard IP, [do_finalize] asks the platform for the
    IP file and the support file of the directory of this class, speed and
    lane count, next to the Python file, and instantiates the hard IP. *)
Theorem bundled_sources pads speed dw b0 cd pdw self m cls here platform :
  new pads speed dw b0 cd pdw = inr (self, m) ->
  here <> "" -> endswith_sep here = false ->
  let dir := here +:+ "/" +:+ phy_path cls speed (nbits (tx_p pads)) in
  exists m',
    do_finalize cls here self platform m
    = inr ((platform ++ [ add_ip (dir +:+ "/pcie_usp.xci");
                          add_source (dir +:+ "/pcie_usp_support.v") ])%list,
           m') /\
    specials m' = (specials m ++ [Instance "pcie_support" (pcie_phy_params self)])%list /\
    comb m' = comb m /\ sync m' = sync m /\ submodules m' = submodules m.
Proof.
  intros H Hne Hend dir.
  assert (Hself : external_hard_ip self = false /\ USPPCIEPHY.speed self = speed /\
                  nlanes self = nbits (tx_p pads) /\
                  speed ∈ ["gen2"; "gen3"; "gen4"] /\
                  nbits (tx_p pads) ∈ [1; 2; 4; 8; 16]).
  { clear -H. new_inv H; repeat split; assumption. }
  destruct Hself as (Hext & Hspeed & Hlanes & Hs & Hn).
  destruct (phy_path_shape cls speed _ Hs Hn) as (Hp & Hstart & Hpend).
  unfold do_finalize, USPPCIEPHY.do_finalize, add_sources, bind, ret.
  rewrite Hext, Hspeed, Hlanes. cbn [negb].
  assert (Hjoin : join here (phy_path cls speed (nbits (tx_p pads))) = dir).
  { unfold join. rewrite Hstart, Hend.
    destruct (String.eqb_spec here ""); [contradiction|]. reflexivity. }
  rewrite Hjoin.
  assert (Hfile : forall f, startswith_sep f = false -> join dir f = dir +:+ "/" +:+ f).
  { intros f Hf. unfold join. rewrite Hf.
    assert (Hd : endswith_sep dir = false).
    { unfold dir. rewrite !endswith_sep_app; [exact Hpend|exact Hp|].
      destruct (phy_path _ _ _); [contradiction|discriminate]. }
    rewrite Hd.
    destruct (String.eqb_spec dir "") as [E|_]; [|reflexivity].
    unfold dir in E. destruct here; [contradiction|discriminate E]. }
  rewrite !Hfile by reflexivity.
  destruct m as [c s sp su cl]. cbn [add_specials].
  eexists. split; [reflexivity|]. repeat split.
Qed.

Lemma bundled_sources_witness :
  exists self m m',
    new pads_x4 "gen2" 64 MB "sys" None = inr (self, m) /\
    do_finalize USPHBMPCIEPHY "/opt/litepcie/phy" self [] m
    = inr ([ add_ip "/opt/litepcie/phy/xilinx_usp_hbm_gen2_x4/pcie_usp.xci";
             add_source "/opt/litepcie/phy/xilinx_usp_hbm_gen2_x4/pcie_usp_support.v" ],
           m').
Proof.
  destruct example_phy as [[self m] E].
  destruct (bundled_sources _ _ _ _ _ _ _ _ USPHBMPCIEPHY "/opt/litepcie/phy" [] E
              ltac:(discriminate) ltac:(reflexivity)) as (m' & Hfin & _).
  exists self, m, m'. split; [exact E|]. exact Hfin.
Defined.

(** X13. With an external hard IP the bundled one is not used: after
    [use_external_hard_ip], [do_finalize] asks the platform for nothing more,
    whatever the class, speed and lane count; the platform has been asked for
    the two files [use_external_hard_ip] joins to the external directory, and
    the hard IP is instantiated with the same parameters. *)
Theorem external_sources self m cls here platform hard_ip_path hard_ip_filename :
  let '(self', platform') :=
    use_external_hard_ip self platform hard_ip_path hard_ip_filename in
  platform'
  = (platform ++ [ add_ip (join hard_ip_path hard_ip_filename);
                   add_source (join hard_ip_path "pcie_usp_support.v") ])%list /\
  pcie_phy_params self' = pcie_phy_params self /\
  exists m',
    do_finalize cls here self' platform' m = inr (platform', m') /\
    specials m'
    = (specials m ++ [Instance "pcie_support" (pcie_phy_params self)])%list.
Proof.
  unfold use_external_hard_ip, add_sources.
  split; [reflexivity|]. split; [reflexivity|].
  unfold do_finalize, USPPCIEPHY.do_finalize, bind, ret.
  cbn [set_external_hard_ip external_hard_ip negb pcie_phy_params].
  destruct m as [c s sp su cl]. cbn [add_specials].
  eexists. split; reflexivity.
Qed.

(** X14. Supported configurations never share the directory of their
    bundled IP: the directory name determines the class, the speed and the
    lane count. *)
Theorem phy_path_injective cls speed nlanes cls' speed' nlanes' :
  speed ∈ ["gen2"; "gen3"; "gen4"] -> nlanes ∈ [1; 2; 4; 8; 16] ->
  speed' ∈ ["gen2"; "gen3"; "gen4"] -> nlanes' ∈ [1; 2; 4; 8; 16] ->
  phy_path cls speed nlanes = phy_path cls' speed' nlanes' ->
  cls = cls' /\ speed = speed' /\ nlanes = nlanes'.
Proof.
  intros Hs Hn Hs' Hn' Heq.
  unfold phy_path in Heq.
  revert Heq.
  repeat (apply elem_of_cons in Hs as [->|Hs]);
    try (apply elem_of_nil in Hs; contradiction).
  all: repeat (apply elem_of_cons in Hs' as [->|Hs']);
    try (apply elem_of_nil in Hs'; contradiction).
  all: repeat (apply elem_of_cons in Hn as [->|Hn]);
    try (apply elem_of_nil in Hn; contradiction).
  all: repeat (apply elem_of_cons in Hn' as [->|Hn']);
    try (apply elem_of_nil in Hn'; contradiction).
  all: destruct cls, cls'; vm_compute; intros Heq;
    first [discriminate Heq | repeat split; reflexivity].
Qed.

Lemma phy_path_injective_witness :
  USP19PPCIEPHY = USP19PPCIEPHY /\ "gen3" = "gen3" /\ 8 = 8.
Proof.
  apply (phy_path_injective USP19PPCIEPHY "gen3" 8 USP19PPCIEPHY "gen3" 8);
    first [reflexivity | in_list].
Defined.

(** ** What the arguments do not change *)

(** X15. The speed shapes no logic: two supported speeds give the same
    netlist and the same hard-IP parameters; the speed only picks the
    directory of the bundled IP. *)
Theorem speed_shapes_no_logic pads speed speed' dw b0 cd pdw self m self' m' :
  new pads speed dw b0 cd pdw = inr (self, m) ->
  new pads speed' dw b0 cd pdw = inr (self', m') ->
  m = m' /\ pcie_phy_params self = pcie_phy_params self'.
Proof.
  intros H H'. new_inv H.
  all: new_checks H'.
  all: match goal with
       | E : rst_n _ = _ |- _ => rewrite E in H'
       end.
  all: destruct (decide (cd = "pcie")); try contradiction.
  all: simpl in H'; injection H' as <- <-.
  all: split; reflexivity.
Qed.

Lemma speed_shapes_no_logic_witness :
  exists self m self' m',
    new pads_x4 "gen2" 64 MB "sys" None = inr (self, m) /\
    new pads_x4 "gen4" 64 MB "sys" None = inr (self', m') /\
    m = m'.
Proof.
  destruct example_phy as [[self m] E].
  destruct (new pads_x4 "gen4" 64 MB "sys" None) as [e|[self' m']] eqn:E'.
  { vm_compute in E'. discriminate E'. }
  exists self, m, self', m'. split; [exact E|]. split; [reflexivity|].
  exact (proj1 (speed_shapes_no_logic _ _ _ _ _ _ _ _ _ _ _ E E')).
Defined.

(** X16. The reset pin is optional: with a [rst_n] pad, [pcie_rst_n] follows
    bit 0 of the pad; without one, no statement drives [pcie_rst_n], which
    keeps its value. *)
Theorem reset_pad_optional pads speed dw b0 cd pdw self m :
  new pads speed dw b0 cd pdw = inr (self, m) ->
  forall σ,
    match rst_n pads with
    | Some r => (read (settle m σ) (pcie_rst_n self) = trunc 1 (read σ r))
    | None =>
        ((sig_name (pcie_rst_n self) ∉ flat_map targets (statements m)) /\
         read (settle m σ) (pcie_rst_n self) = read σ (pcie_rst_n self))
    end.
Proof.
  intros H. new_inv H.
  all: cbn [pcie_rst_n].
  1, 2: intros σ; settle_eval; reflexivity.
  all: intros σ; split; [apply (bool_decide_unpack _); vm_compute; exact I|].
  all: unfold settle, read; f_equal; f_equal; apply exec_block_frame.
  all: apply (bool_decide_unpack _); vm_compute; exact I.
Qed.

Lemma reset_pad_optional_witness :
  exists self m,
    new pads_x4 "gen2" 64 MB "sys" None = inr (self, m) /\
    read (settle m (<["pcie_x4_rst_n" := 1]> ∅)) (pcie_rst_n self) = 1.
Proof.
  destruct example_phy as [[self m] E]. exists self, m. split; [exact E|].
  rewrite (reset_pad_optional _ _ _ _ _ _ _ _ E (<["pcie_x4_rst_n" := 1]> ∅)).
  reflexivity.
Defined.

(** ** The status registers, two edges later *)

(** X17. After two clock edges of the sys domain the link-up, MSI-enabled,
    max request size and max payload size status registers hold the value
    their source signal had before the edges. *)
Theorem status_relay_two_edges pads speed dw b0 cd pdw self m :
  new pads speed dw b0 cd pdw = inr (self, m) ->
  forall σ,
    let σ' := settle m (tick "sys" m (tick "sys" m σ)) in
    read σ' (status (_link_up self)) = read σ link_up /\
    read σ' (status (_msi_enable self)) = read σ msi_enable /\
    read σ' (status (_max_request_size self)) = read σ (max_request_size self) /\
    read σ' (status (_max_payload_size self)) = read σ (max_payload_size self).
Proof.
  intros H σ. exact (status_relays _ _ _ _ _ _ _ _ σ H).
Qed.

Lemma status_relay_two_edges_witness :
  exists self m,
    new pads_x4 "gen2" 64 MB "sys" None = inr (self, m) /\
    read (settle m (tick "sys" m (tick "sys" m (<["link_up" := 1]> ∅))))
         (status (_link_up self)) = 1.
Proof.
  destruct example_phy as [[self m] E]. exists self, m. split; [exact E|].
  exact (proj1 (status_relay_two_edges _ _ _ _ _ _ _ _ E (<["link_up" := 1]> ∅))).
Defined.
